(** * fldigi-py: the call dispatcher, the namespace proxies and the façade

    A shallow embedding of [flgidi-py/__init__.py].  The module is a thin
    XML-RPC client: every remote call goes through [Fldigi._call], which maps
    the failures of the transport to a small hierarchy of exceptions;
    [NamespaceProxy] turns attribute access into remote method names; the
    class [Fldigi] adds convenience methods and properties on top.

    Python values are dynamically typed, so arguments and results are
    modelled by one type [Value].  Exceptions are results of a small
    state-and-exception monad; the state is the remote application together
    with the list of requests sent so far. *)

From Stdlib Require Import ZArith String Ascii List Bool Lia Floats DecimalString.
From stdpp Require Import base option gmap strings list.

Local Set Warnings "-register-all".
Local Open Scope string_scope.
Local Open Scope Z_scope.
#[local] Arguments String.append !s1 s2.

(** ** Strings: the three [str] operations the dispatcher uses *)

(** One character of [str.lower()]: [A]..[Z] go to [a]..[z].  Remote method
    names are ASCII; no other code point lower-cases to a letter of ["rig"]
    or ["modem"] followed by the next letter of the word. *)
Definition lower_ascii (c : ascii) : ascii :=
  let n := nat_of_ascii c in
  if ((65 <=? n)%nat && (n <=? 90)%nat)%bool then ascii_of_nat (n + 32) else c.

(** [s.lower()] *)
Fixpoint lower (s : string) : string :=
  match s with
  | EmptyString => EmptyString
  | String c r => String (lower_ascii c) (lower r)
  end.

(** [s.startswith(p)] *)
Fixpoint startswith (s p : string) {struct p} : bool :=
  match p, s with
  | EmptyString, _ => true
  | String a p', String b s' => (Ascii.eqb a b && startswith s' p')%bool
  | String _ _, EmptyString => false
  end.

(** [needle in hay] *)
Fixpoint str_in (needle hay : string) : bool :=
  (startswith hay needle ||
   match hay with
   | EmptyString => false
   | String _ r => str_in needle r
   end)%bool.

(** [f"{i}"] for an [int]: decimal digits, with a minus sign when negative. *)
Definition str_int (i : Z) : string := NilZero.string_of_int (Z.to_int i).

(** What the words "starts with" and "contains" mean, independently of the
    two functions above. *)
Definition StartsWith (p s : string) : Prop := exists post, s = p +:+ post.
Definition Contains (needle s : string) : Prop :=
  exists pre post, s = pre +:+ needle +:+ post.

(** ** Values that cross the wire

    The type letters of the module docstring: 6=bytes A=list b=bool d=float
    i=int n=None s=str S=dict. *)
Inductive Value :=
| VNone
| VBool (b : bool)
| VInt (i : Z)
| VFloat (d : float)
| VStr (s : string)
| VBytes (b : list Byte.byte)
| VList (items : list Value)
| VDict (items : list (string * Value)).

(** Truth value of an object, as [or] tests it. *)
Definition truthy (v : Value) : bool :=
  match v with
  | VNone => false
  | VBool b => b
  | VInt i => negb (i =? 0)
  | VFloat d => negb (PrimFloat.eqb d 0%float)
  | VStr s => negb (String.eqb s "")
  | VBytes b => match b with [] => false | _ => true end
  | VList l => match l with [] => false | _ => true end
  | VDict d => match d with [] => false | _ => true end
  end.

(** [a or b] *)
Definition py_or (a b : Value) : Value := if truthy a then a else b.

(** ** Exceptions *)

(** The four concrete classes below [FldigiError]. *)
Inductive FldigiClass :=
| FldigiXmlrpcError
| FldigiRigError
| FldigiModemError
| FldigiMainError.

Definition FldigiClass_eqb (a b : FldigiClass) : bool :=
  match a, b with
  | FldigiXmlrpcError, FldigiXmlrpcError
  | FldigiRigError, FldigiRigError
  | FldigiModemError, FldigiModemError
  | FldigiMainError, FldigiMainError => true
  | _, _ => false
  end.

(** An exception object.  [Fault] is [xmlrpc.client.Fault], the failure the
    remote side reports itself.  [PyError cls text] is any other exception
    derived from [Exception] (a socket error, a timeout, an HTTP
    [ProtocolError], a [TypeError], ...) with its class name and [str(e)].
    [FldigiExc cls message cause] is an exception of this module; [cause] is the
    [__cause__] set by [raise ... from e], [None] for a plain [raise].
    Signals that do not derive from [Exception] ([KeyboardInterrupt],
    [SystemExit]) are no failures of a call and are left out. *)
Inductive exn :=
| Fault (faultCode : Z) (faultString : string)
| PyError (cls : string) (text : string)
| FldigiExc (cls : FldigiClass) (message : string) (cause : option exn).

(** The classes named in the [except] clauses of the module. *)
Inductive ExcClass :=
| Exception
| xmlrpc_client_Fault
| FldigiError
| FldigiSub (cls : FldigiClass).

Definition isinstance (e : exn) (c : ExcClass) : bool :=
  match c, e with
  | Exception, _ => true
  | xmlrpc_client_Fault, Fault _ _ => true
  | FldigiError, FldigiExc _ _ _ => true
  | FldigiSub k, FldigiExc k' _ _ => FldigiClass_eqb k k'
  | _, _ => false
  end.

(** [e.faultString]; only read inside the [except Fault] handler. *)
Definition faultString_of (e : exn) : string :=
  match e with
  | Fault _ s => s
  | _ => ""
  end.

Definition cause_of (e : exn) : option exn :=
  match e with
  | FldigiExc _ _ c => c
  | _ => None
  end.

Definition message_of (e : exn) : string :=
  match e with
  | FldigiExc _ m _ => m
  | PyError _ t => t
  | Fault _ s => s
  end.

(** ** Results and the client monad *)

Inductive Outcome (A : Type) :=
| Return (a : A)
| Raise (e : exn).
Arguments Return {A} a.
Arguments Raise {A} e.

(** A request as it goes to the transport: method name and positional
    arguments. *)
Definition WireCall : Type := string * list Value.

(** ** What the module takes from outside

    [Remote] is the state of the remote application and of the network.
    [ServerProxy] is [xmlrpc.client.ServerProxy]: [ServerProxy_init url
    timeout] is its constructor called as [ServerProxy(url, timeout=timeout)],
    [request s method args] is [getattr(s, method)( *args)], one blocking
    round trip.  [repr_str] is the built-in [repr] on [str]. *)
Class Library := {
  Remote : Type;
  ServerProxy : Type;
  ServerProxy_init : string -> float -> exn + ServerProxy;
  request : ServerProxy -> string -> list Value -> Remote -> Outcome Value * Remote;
  repr_str : string -> string
}.

Section Client.

Context {lib : Library}.

(** The state threaded through the client: the remote side, and the log of
    every request handed to the transport, oldest first. *)
Record World := mkWorld { remote : Remote; wire : list WireCall }.

Definition M (A : Type) : Type := World -> Outcome A * World.

Definition ret {A} (a : A) : M A := fun w => (Return a, w).
Definition raise {A} (e : exn) : M A := fun w => (Raise e, w).
Definition bind {A B} (c : M A) (k : A -> M B) : M B :=
  fun w =>
    match c w with
    | (Return a, w') => k a w'
    | (Raise e, w') => (Raise e, w')
    end.

Notation "'let!' x ':=' c 'in' k" := (bind c (fun x => k))
  (at level 10, x name, c at level 100, k at level 200).
Notation "c ';;' k" := (bind c (fun _ => k))
  (at level 100, k at level 200, right associativity).

(** [try: body / except C1 as e: h1 / except C2 as e: h2 ...]: the first
    clause whose class the exception is an instance of runs; an exception
    raised by a handler leaves the statement, the clauses that follow do
    not see it. *)
Definition try_except {A} (body : M A)
    (handlers : list (ExcClass * (exn -> M A))) : M A :=
  fun w =>
    match body w with
    | (Return a, w') => (Return a, w')
    | (Raise e, w') =>
        match List.find (fun h => isinstance e (fst h)) handlers with
        | Some h => snd h e w'
        | None => (Raise e, w')
        end
    end.

(** [str(e)]: [Fault] prints as its [repr]; the others print their text. *)
Definition str (e : exn) : string :=
  match e with
  | Fault c s => "<Fault " +:+ str_int c +:+ ": " +:+ repr_str s +:+ ">"
  | PyError _ t => t
  | FldigiExc _ m _ => m
  end.

(** *** class Fldigi: the fields set by [__init__] *)
Record Fldigi := mkFldigi {
  _host : string;
  _port : Z;
  _timeout : float;
  _server : option ServerProxy
}.

(** [getattr(self._server, method)( *args)]: hands the request to the
    transport, which is logged; on [None] the attribute lookup fails. *)
Definition server_call (srv : option ServerProxy) (method : string)
    (args : list Value) : M Value :=
  match srv with
  | Some s =>
      fun w =>
        let '(r, rem) := request s method args (remote w) in
        (r, mkWorld rem (wire w ++ [(method, args)]))
  | None =>
      raise (PyError "AttributeError"
               ("'NoneType' object has no attribute '" +:+ method +:+ "'"))
  end.

(** [Fldigi._connect] *)
Definition _connect (self : Fldigi) : M Fldigi :=
  let url := "http://" +:+ _host self +:+ ":" +:+ str_int (_port self) in
  try_except
    (match ServerProxy_init url (_timeout self) with
     | inr s => ret (mkFldigi (_host self) (_port self) (_timeout self) (Some s))
     | inl e => raise e
     end)
    [ (Exception, fun e =>
         raise (FldigiExc FldigiXmlrpcError
                  ("Failed to connect to FLDIGI at " +:+ url +:+ ": " +:+ str e)
                  None)) ].

(** [Fldigi.__init__], arguments typed as annotated. *)
Definition __init__ (host : string) (port : Z) (timeout : float) : M Fldigi :=
  _connect (mkFldigi host port timeout None).

(** [Fldigi(...)] with the defaults of the signature for omitted arguments. *)
Definition new_client (host : option string) (port : option Z)
    (timeout : option float) : M Fldigi :=
  __init__ (default "127.0.0.1" host) (default 7362 port)
           (default 5%float timeout).

(** [Fldigi._call] *)
Definition _call (self : Fldigi) (method : string) (args : list Value)
    : M Value :=
  try_except
    (let! result := server_call (_server self) method args in
     ret result)
    [ (xmlrpc_client_Fault, fun e =>
         if str_in "rig" (lower method) then
           raise (FldigiExc FldigiRigError
                    ("Rig error in " +:+ method +:+ ": " +:+ faultString_of e)
                    (Some e))
         else if str_in "modem" (lower method) then
           raise (FldigiExc FldigiModemError
                    ("Modem error in " +:+ method +:+ ": " +:+ faultString_of e)
                    (Some e))
         else if startswith method "main." then
           raise (FldigiExc FldigiMainError
                    ("Main error in " +:+ method +:+ ": " +:+ faultString_of e)
                    (Some e))
         else
           raise (FldigiExc FldigiXmlrpcError
                    ("XML-RPC fault in " +:+ method +:+ ": " +:+ faultString_of e)
                    (Some e)));
      (Exception, fun e =>
         raise (FldigiExc FldigiXmlrpcError
                  ("XML-RPC call failed for " +:+ method +:+ ": " +:+ str e)
                  (Some e))) ].

(** *** class NamespaceProxy *)

Record NamespaceProxy := mkNamespaceProxy {
  _client : Fldigi;
  _namespace : string
}.

(** Keyword arguments of a call, in the order written. *)
Definition Kwargs : Type := list (string * Value).

(** What an attribute access can evaluate to. *)
Inductive PyObj :=
| OValue (v : Value)
| OCallable (f : list Value -> Kwargs -> M Value)
| OProxy (p : NamespaceProxy)
| OClient (c : Fldigi)
| OServer (s : ServerProxy).

(** *** What the interpreter decides

    [ordinary_attr name] tells whether ordinary lookup on a class of this
    module or on its base [object] resolves [name] ([__class__], [__dict__],
    [__init__], [__getattr__], [__repr__], ...), the public members of
    [Fldigi] listed in [Fldigi_body] apart; [library_getattr o name] is what
    such an access evaluates to, and the attribute access on an object of a
    built-in or library type.  [library_call] is the call of an object whose
    behaviour the interpreter or the standard library fixes.
    [signature_error f args kwargs] is the text of the [TypeError] raised
    when a call does not fit the signature of [f]. *)
Class Runtime := {
  ordinary_attr : string -> bool;
  library_getattr : PyObj -> string -> M PyObj;
  library_call : PyObj -> list Value -> Kwargs -> M Value;
  signature_error : string -> list Value -> Kwargs -> string
}.

Context {rt : Runtime}.

(** [NamespaceProxy.__getattr__]: the closure [method] it returns.
    [_call] takes no keyword arguments, so passing any on is a [TypeError]
    at the call, outside [_call]'s [try]. *)
Definition __getattr__ (self : NamespaceProxy) (name : string) : PyObj :=
  OCallable (fun args kwargs =>
    match kwargs with
    | [] => _call (_client self) (_namespace self +:+ "." +:+ name) args
    | _ :: _ => raise (PyError "TypeError" (signature_error "_call" args kwargs))
    end).

(** [proxy.name]: the two instance attributes set by [__init__], then what
    ordinary lookup finds, and only then [__getattr__]. *)
Definition NamespaceProxy_getattr (self : NamespaceProxy) (name : string)
    : M PyObj :=
  if String.eqb name "_client" then ret (OClient (_client self))
  else if String.eqb name "_namespace" then ret (OValue (VStr (_namespace self)))
  else if ordinary_attr name then library_getattr (OProxy self) name
  else ret (__getattr__ self name).

Definition type_name (v : Value) : string :=
  match v with
  | VNone => "NoneType"
  | VBool _ => "bool"
  | VInt _ => "int"
  | VFloat _ => "float"
  | VStr _ => "str"
  | VBytes _ => "bytes"
  | VList _ => "list"
  | VDict _ => "dict"
  end.

(** [o( *args, **kwargs)].  Neither class of the module defines [__call__],
    and the implicit lookup of [__call__] does not go through
    [__getattr__]. *)
Definition call (o : PyObj) (args : list Value) (kwargs : Kwargs) : M Value :=
  match o with
  | OCallable f => f args kwargs
  | OValue v =>
      raise (PyError "TypeError" ("'" +:+ type_name v +:+ "' object is not callable"))
  | OProxy _ =>
      raise (PyError "TypeError" "'NamespaceProxy' object is not callable")
  | OClient _ =>
      raise (PyError "TypeError" "'Fldigi' object is not callable")
  | OServer _ => library_call o args kwargs
  end.

(** *** Functions and their parameters *)

(** A parameter after [self]: its name and its default, if it has one. *)
Definition Param : Type := string * option Value.

Fixpoint Body (params : list Param) : Type :=
  match params with
  | [] => M Value
  | _ :: ps => Value -> Body ps
  end.

Fixpoint kw_lookup (name : string) (kwargs : Kwargs) : option Value :=
  match kwargs with
  | [] => None
  | (k, v) :: r => if String.eqb k name then Some v else kw_lookup name r
  end.

Definition kw_remove (name : string) (kwargs : Kwargs) : Kwargs :=
  List.filter (fun kv => negb (String.eqb (fst kv) name)) kwargs.

(** Binding of the arguments of a call to the parameters: positional
    arguments fill the parameters from the left, keywords fill the rest by
    name, defaults fill what is left.  Too many arguments, an unknown or
    repeated keyword or a missing argument raise [err]; the body runs only
    when all parameters are bound. *)
Fixpoint bind_params (err : exn) (params : list Param)
    : Body params -> list Value -> Kwargs -> M Value :=
  match params with
  | [] => fun body args kwargs =>
      match args, kwargs with
      | [], [] => body
      | _, _ => raise err
      end
  | (name, dflt) :: ps => fun body args kwargs =>
      match args with
      | a :: rest =>
          match kw_lookup name kwargs with
          | Some _ => raise err
          | None => bind_params err ps (body a) rest kwargs
          end
      | [] =>
          match kw_lookup name kwargs, dflt with
          | Some v, _ => bind_params err ps (body v) [] (kw_remove name kwargs)
          | None, Some d => bind_params err ps (body d) [] kwargs
          | None, None => raise err
          end
      end
  end.

(** *** class Fldigi: the convenience methods *)

Definition rx (self : Fldigi) : M Value :=
  _call self "main.rx" [].

Definition tx (self : Fldigi) : M Value :=
  _call self "main.tx" [] ;; ret VNone.

Definition tune (self : Fldigi) : M Value :=
  _call self "main.tune" [] ;; ret VNone.

Definition abort (self : Fldigi) : M Value :=
  _call self "main.abort" [] ;; ret VNone.

Definition add_tx (self : Fldigi) (text : Value) : M Value :=
  _call self "text.add_tx" [text] ;; ret VNone.

Definition clear_rx (self : Fldigi) : M Value :=
  _call self "text.clear_rx" [] ;; ret VNone.

Definition clear_tx (self : Fldigi) : M Value :=
  _call self "text.clear_tx" [] ;; ret VNone.

Definition get_rx (self : Fldigi) (start length : Value) : M Value :=
  _call self "text.get_rx" [start; VInt 0; py_or length (VInt 0)].

(** *** class Fldigi: the properties *)

Definition frequency (self : Fldigi) : M Value :=
  try_except (_call self "rig.get_frequency" [])
    [ (FldigiSub FldigiRigError, fun _ => _call self "main.get_frequency" []) ].

Definition frequency_setter (self : Fldigi) (freq : Value) : M unit :=
  try_except (_call self "rig.set_frequency" [freq] ;; ret tt)
    [ (FldigiSub FldigiRigError, fun _ =>
         _call self "main.set_frequency" [freq] ;; ret tt) ].

Definition mode (self : Fldigi) : M Value :=
  try_except (_call self "rig.get_mode" [])
    [ (FldigiSub FldigiRigError, fun _ => _call self "main.get_mode" []) ].

Definition mode_setter (self : Fldigi) (mode_name : Value) : M unit :=
  try_except (_call self "rig.set_mode" [mode_name] ;; ret tt)
    [ (FldigiSub FldigiRigError, fun _ =>
         _call self "main.set_mode" [mode_name] ;; ret tt) ].

Definition bandwidth (self : Fldigi) : M Value :=
  try_except (_call self "rig.get_bandwidth" [])
    [ (FldigiSub FldigiRigError, fun _ => _call self "main.get_bandwidth" []) ].

Definition bandwidth_setter (self : Fldigi) (bw : Value) : M unit :=
  try_except (_call self "rig.set_bandwidth" [bw] ;; ret tt)
    [ (FldigiSub FldigiRigError, fun _ =>
         _call self "main.set_bandwidth" [bw] ;; ret tt) ].

Definition squelch (self : Fldigi) : M Value :=
  _call self "main.get_squelch_level" [].

Definition squelch_setter (self : Fldigi) (level : Value) : M unit :=
  _call self "main.set_squelch_level" [level] ;; ret tt.

Definition signal_strength (self : Fldigi) : M Value :=
  _call self "modem.get_quality" [].

Definition rx_state (self : Fldigi) : M Value :=
  _call self "main.rx" [].

Definition tx_state (self : Fldigi) : M Value :=
  _call self "main.tx" [].

(** *** class Fldigi: the class body *)

(** A name bound in the class body: a function ([def]) or a property. *)
Inductive Member :=
| Function (params : list Param) (body : Fldigi -> Body params)
| Property (fget : Fldigi -> M PyObj) (fset : option (Fldigi -> Value -> M unit)).

(** A property whose getter returns data from the remote side. *)
Definition data (fget : Fldigi -> M Value) : Fldigi -> M PyObj :=
  fun self => let! v := fget self in ret (OValue v).

(** A property whose getter is [return NamespaceProxy(self, namespace)]. *)
Definition proxy (namespace : string) : Fldigi -> M PyObj :=
  fun self => ret (OProxy (mkNamespaceProxy self namespace)).

(** The public bindings of the class body, in the order of the source; a
    [@name.setter] binds the name again, to the property with both
    accessors.  ([__init__], [_connect] and [_call] are the functions
    above.) *)
Definition Fldigi_body : list (string * Member) :=
  [ ("rx", Function [] rx);
    ("tx", Function [] tx);
    ("tune", Function [] tune);
    ("abort", Function [] abort);
    ("add_tx", Function [("text", None)] add_tx);
    ("clear_rx", Function [] clear_rx);
    ("clear_tx", Function [] clear_tx);
    ("get_rx", Function [("start", Some (VInt 0)); ("length", Some VNone)] get_rx);
    ("frequency", Property (data frequency) None);
    ("frequency", Property (data frequency) (Some frequency_setter));
    ("mode", Property (data mode) None);
    ("mode", Property (data mode) (Some mode_setter));
    ("bandwidth", Property (data bandwidth) None);
    ("bandwidth", Property (data bandwidth) (Some bandwidth_setter));
    ("squelch", Property (data squelch) None);
    ("squelch", Property (data squelch) (Some squelch_setter));
    ("signal_strength", Property (data signal_strength) None);
    ("rx_state", Property (data rx_state) None);
    ("tx_state", Property (data tx_state) None);
    ("fldigi", Property (proxy "fldigi") None);
    ("main", Property (proxy "main") None);
    ("rig", Property (proxy "rig") None);
    ("text", Property (proxy "text") None);
    ("modem", Property (proxy "modem") None);
    ("modem_olivia", Property (proxy "modem.olivia") None);
    ("rx", Property (proxy "rx") None);
    ("rxtx", Property (proxy "rxtx") None);
    ("tx", Property (proxy "tx") None);
    ("log", Property (proxy "log") None);
    ("io", Property (proxy "io") None);
    ("spot", Property (proxy "spot") None);
    ("navtex", Property (proxy "navtex") None);
    ("wefax", Property (proxy "wefax") None) ].

(** The namespace of the class once its body has run: each binding
    replaces an earlier binding of the same name. *)
Definition Fldigi_namespace : gmap string Member :=
  fold_left (fun ns b => <[fst b := snd b]> ns) Fldigi_body ∅.

(** The instance attributes set by [__init__]. *)
Definition instance_attr (self : Fldigi) (name : string) : option PyObj :=
  if String.eqb name "_host" then Some (OValue (VStr (_host self)))
  else if String.eqb name "_port" then Some (OValue (VInt (_port self)))
  else if String.eqb name "_timeout" then Some (OValue (VFloat (_timeout self)))
  else if String.eqb name "_server" then
    Some (match _server self with Some s => OServer s | None => OValue VNone end)
  else None.

(** [client.name]: a property of the class runs its getter; then the
    instance attributes; then the functions of the class, bound to the
    client; then what ordinary lookup finds.  [Fldigi] has no
    [__getattr__]. *)
Definition Fldigi_getattr (self : Fldigi) (name : string) : M PyObj :=
  match Fldigi_namespace !! name with
  | Some (Property fget _) => fget self
  | member =>
      match instance_attr self name, member with
      | Some o, _ => ret o
      | None, Some (Function params body) =>
          ret (OCallable (fun args kwargs =>
                 bind_params (PyError "TypeError" (signature_error name args kwargs))
                   params (body self) args kwargs))
      | None, _ =>
          if ordinary_attr name then library_getattr (OClient self) name
          else raise (PyError "AttributeError"
                        ("'Fldigi' object has no attribute '" +:+ name +:+ "'"))
      end
  end.

(** [client.name = v] for a property with a setter: the setter that runs. *)
Definition Fldigi_setter (name : string) : option (Fldigi -> Value -> M unit) :=
  match Fldigi_namespace !! name with
  | Some (Property _ fset) => fset
  | _ => None
  end.

(** [o.name] *)
Definition getattr (o : PyObj) (name : string) : M PyObj :=
  match o with
  | OClient c => Fldigi_getattr c name
  | OProxy p => NamespaceProxy_getattr p name
  | _ => library_getattr o name
  end.

(** [o.name( *args, **kwargs)] *)
Definition call_method (o : PyObj) (name : string) (args : list Value)
    (kwargs : Kwargs) : M Value :=
  let! m := getattr o name in call m args kwargs.

(** [o.ns.name( *args, **kwargs)] *)
Definition call_method2 (o : PyObj) (ns name : string) (args : list Value)
    (kwargs : Kwargs) : M Value :=
  let! p := getattr o ns in call_method p name args kwargs.

End Client.

(** ** A scripted remote

    A concrete transport on which the client can be run: the remote side is
    the list of the replies still to come, one per request; when the list is
    empty the connection is refused.

    The constructor of the proxy is the one of the standard library,
    [ServerProxy.__init__(self, uri, transport=None, encoding=None,
    verbose=False, allow_none=False, use_datetime=False,
    use_builtin_types=False, *, headers=(), context=None)]: it has no
    parameter [timeout], so the call [ServerProxy(url, timeout=...)] of
    [_connect] raises [TypeError] whatever the URL (the text is the one of
    Python 3.10 and later). *)
Module Scripted.

#[export] Instance library : Library := {|
  Remote := list (Outcome Value);
  ServerProxy := string;
  ServerProxy_init := fun _ _ =>
    inl (PyError "TypeError"
           "ServerProxy.__init__() got an unexpected keyword argument 'timeout'");
  request := fun _ _ _ replies =>
    match replies with
    | r :: rest => (r, rest)
    | [] => (Raise (PyError "ConnectionRefusedError" "[Errno 111] Connection refused"), [])
    end;
  repr_str := fun s => "'" +:+ s +:+ "'"
|}.

(** The text of the [TypeError] of a call that does not fit a signature. *)
Definition signature_text (f : string) : string :=
  f +:+ "() got unexpected arguments".

(** [client._call], bound to the client: [_call(self, method, *args)], the
    method name a [str] as annotated, given by position or as the one
    keyword. *)
Definition bound_call (c : Fldigi) (args : list Value) (kwargs : Kwargs)
    : M Value :=
  match args, kwargs with
  | VStr method :: rest, [] => _call c method rest
  | [], [(k, VStr method)] =>
      if String.eqb k "method" then _call c method []
      else raise (PyError "TypeError" (signature_text "_call"))
  | _, _ => raise (PyError "TypeError" (signature_text "_call"))
  end.

(** [client._connect], bound to the client; it takes no argument. *)
Definition bound_connect (c : Fldigi) (args : list Value) (kwargs : Kwargs)
    : M Value :=
  match args, kwargs with
  | [], [] => bind (_connect c) (fun _ => ret VNone)
  | _, _ => raise (PyError "TypeError" (signature_text "_connect"))
  end.

(** Ordinary lookup resolves the names with two leading underscores and,
    on a client, the methods [_connect] and [_call] of the class; a proxy
    has neither of the two, so its [__getattr__] forwards them like any
    other name. *)
#[export] Instance runtime : Runtime := {|
  ordinary_attr := fun name =>
    (startswith name "__" || String.eqb name "_connect" || String.eqb name "_call")%bool;
  library_getattr := fun o name =>
    match o with
    | OClient c =>
        if String.eqb name "_call" then ret (OCallable (bound_call c))
        else if String.eqb name "_connect" then ret (OCallable (bound_connect c))
        else raise (PyError "AttributeError" ("no attribute '" +:+ name +:+ "'"))
    | OProxy p =>
        if (String.eqb name "_call" || String.eqb name "_connect")%bool then
          ret (OCallable (fun args kwargs =>
                 match kwargs with
                 | [] => _call (_client p) (_namespace p +:+ "." +:+ name) args
                 | _ :: _ => raise (PyError "TypeError" (signature_text "_call"))
                 end))
        else raise (PyError "AttributeError" ("no attribute '" +:+ name +:+ "'"))
    | _ => raise (PyError "AttributeError" ("no attribute '" +:+ name +:+ "'"))
    end;
  library_call := fun _ _ _ =>
    raise (PyError "TypeError" "object is not callable");
  signature_error := fun f _ _ => signature_text f
|}.

(** A client that holds a transport handle for the default address, as the
    methods of the class take it to be after construction, and a world in
    which the remote side will send [replies]. *)
Definition client : Fldigi :=
  mkFldigi "127.0.0.1" 7362 5%float (Some "http://127.0.0.1:7362").

Definition world (replies : list (Outcome Value)) : World :=
  mkWorld replies [].

(** The same, after the requests [sent]. *)
Definition world_sent (replies : list (Outcome Value)) (sent : list WireCall)
    : World :=
  mkWorld replies sent.

End Scripted.

(** ** The properties, in the words of the specification *)

(** "contains [needle] (case-insensitive)": some substring of [s] is
    [needle] up to the case of its letters. *)
Definition ContainsNoCase (needle s : string) : Prop :=
  exists pre mid post, s = pre +:+ mid +:+ post /\ lower mid = needle.

(** "a protocol-level fault": the remote side rejected the call. *)
Definition protocol_fault (failure : exn) : Prop :=
  exists code text, failure = Fault code text.

(** The decision table of the fault classifier; a row applies only when no
    row above it does. *)
Inductive decision_table (method : string) (failure : exn) : FldigiClass -> Prop :=
| row_rig :
    protocol_fault failure ->
    ContainsNoCase "rig" method ->
    decision_table method failure FldigiRigError
| row_modem :
    protocol_fault failure ->
    ~ ContainsNoCase "rig" method ->
    ContainsNoCase "modem" method ->
    decision_table method failure FldigiModemError
| row_main :
    protocol_fault failure ->
    ~ ContainsNoCase "rig" method ->
    ~ ContainsNoCase "modem" method ->
    StartsWith "main." method ->
    decision_table method failure FldigiMainError
| row_other_fault :
    protocol_fault failure ->
    ~ ContainsNoCase "rig" method ->
    ~ ContainsNoCase "modem" method ->
    ~ StartsWith "main." method ->
    decision_table method failure FldigiXmlrpcError
| row_transport :
    ~ protocol_fault failure ->
    decision_table method failure FldigiXmlrpcError.

Section Properties.

Context {lib : Library} {rt : Runtime}.

Notation "'let!' x ':=' c 'in' k" := (bind c (fun x => k))
  (at level 10, x name, c at level 100, k at level 200).

(** The client has a transport handle. *)
Definition connected (self : Fldigi) : Prop := exists srv, _server self = Some srv.

(** Running [c] from [w] hands exactly the requests [calls] to the
    transport, in this order. *)
Definition issues {A} (c : M A) (w : World) (calls : list WireCall) : Prop :=
  wire (snd (c w)) = (wire w ++ calls)%list.

(** A fallback pair: [run] makes the [primary] call; when that call raises
    [FldigiRigError], and only then, it makes the [fallback] call once, with
    the same arguments, and ends as that call ends; otherwise it ends as the
    primary call ends.  [result] is what [run] makes of the value of the
    call. *)
Definition fallback_pair {A} (self : Fldigi) (primary fallback : string)
    (args : list Value) (result : Value -> A) (run : M A) : Prop :=
  forall w,
    match _call self primary args w with
    | (Return v, w1) =>
        run w = (Return (result v), w1) /\ wire w1 = (wire w ++ [(primary, args)])%list
    | (Raise e, w1) =>
        if isinstance e (FldigiSub FldigiRigError) then
          match _call self fallback args w1 with
          | (Return v, w2) =>
              run w = (Return (result v), w2) /\
              wire w2 = (wire w ++ [(primary, args); (fallback, args)])%list
          | (Raise e2, w2) =>
              run w = (Raise e2, w2) /\
              wire w2 = (wire w ++ [(primary, args); (fallback, args)])%list
          end
        else
          run w = (Raise e, w1) /\ wire w1 = (wire w ++ [(primary, args)])%list
    end.

(** Accessing [name] on the proxy and calling the result with [args] is the
    dispatcher call of [prefix.name] with [args]. *)
Definition proxy_equivalent_to_dispatch (p : NamespaceProxy) (name : string)
    (args : list Value) : Prop :=
  forall w,
    call_method (OProxy p) name args [] w =
    _call (_client p) (_namespace p +:+ "." +:+ name) args w.

(** The names of the namespace proxies of a client. *)
Definition dynamic_surface : list string :=
  [ "fldigi"; "main"; "rig"; "text"; "modem"; "modem_olivia"; "rx"; "rxtx";
    "tx"; "log"; "io"; "spot"; "navtex"; "wefax" ].

(** [client.ns.name( *args)] is the dispatcher call of [target]. *)
Definition forwards_to (self : Fldigi) (ns name target : string) : Prop :=
  forall args w,
    call_method2 (OClient self) ns name args [] w = _call self target args w.

(** [c] is the dispatcher call of [method] with [args], and that request is
    the one request it hands to the transport. *)
Definition dispatches (c : M Value) (self : Fldigi) (method : string)
    (args : list Value) : Prop :=
  forall w, c w = _call self method args w /\ issues c w [(method, args)].

(** The error raised at construction has the failure of the constructor of
    the proxy as its cause. *)
Definition construction_error_chains_cause : Prop :=
  forall host port timeout w x w1,
    __init__ host port timeout w = (Raise x, w1) ->
    exists failure,
      ServerProxy_init ("http://" +:+ host +:+ ":" +:+ str_int port) timeout
      = inl failure /\
      cause_of x = Some failure.

(** The exception a run ends with, if it ends with one. *)
Definition raised {A} (r : Outcome A * World) : option exn :=
  match fst r with
  | Raise e => Some e
  | Return _ => None
  end.

(** The binding of [name] that a sequence of bindings leaves: the last one. *)
Definition last_binding {A} (name : string) (body : list (string * A)) : option A :=
  fold_left (fun found b => if String.eqb (fst b) name then Some (snd b) else found)
    body None.

(** The names that the public part of the class body binds. *)
Definition public_methods : list string :=
  [ "tune"; "abort"; "add_tx"; "clear_rx"; "clear_tx"; "get_rx" ].

Definition assignable_properties : list string :=
  [ "frequency"; "mode"; "bandwidth"; "squelch" ].

Definition read_only_properties : list string :=
  [ "signal_strength"; "rx_state"; "tx_state" ].

(** The methods that return nothing, with the remote method each one
    calls. *)
Definition void_methods : list (string * string) :=
  [ ("tune", "main.tune"); ("abort", "main.abort");
    ("clear_rx", "text.clear_rx"); ("clear_tx", "text.clear_tx") ].

(** The properties that read one fixed remote method. *)
Definition plain_properties : list (string * string) :=
  [ ("squelch", "main.get_squelch_level");
    ("signal_strength", "modem.get_quality");
    ("rx_state", "main.rx"); ("tx_state", "main.tx") ].

(** [c] ends as the run [d] ends, with the value of [d] replaced by [a]. *)
Definition ends_as {A B} (c : M A) (d : M B) (f : B -> A) (w : World) : Prop :=
  c w = match d w with
        | (Return b, w1) => (Return (f b), w1)
        | (Raise e, w1) => (Raise e, w1)
        end.

(** The names of the four instance attributes of a client. *)
Definition instance_names : list string :=
  [ "_host"; "_port"; "_timeout"; "_server" ].

(** The class of the error for a protocol fault on a call made through the
    proxy [pname], when the attribute has neither "rig" nor "modem" in it. *)
Definition fault_class_of_proxy (pname : string) : FldigiClass :=
  if String.eqb pname "rig" then FldigiRigError
  else if String.eqb pname "modem" || String.eqb pname "modem_olivia" then FldigiModemError
  else if String.eqb pname "main" then FldigiMainError
  else FldigiXmlrpcError.

(** The properties that read data from the remote side. *)
Definition data_properties : list string :=
  (assignable_properties ++ read_only_properties)%list.

(** ** Strings *)

Lemma append_assoc (a b c : string) : (a +:+ b) +:+ c = a +:+ (b +:+ c).
Proof. induction a as [|x a IH]; simpl; [reflexivity | now rewrite IH]. Qed.

Lemma startswith_spec (s p : string) : startswith s p = true <-> StartsWith p s.
Proof.
  revert s. induction p as [|a p IH]; intros s.
  - split; [intros _; now exists s | reflexivity].
  - destruct s as [|b s]; simpl.
    + split; [discriminate | intros [post H]; discriminate].
    + rewrite andb_true_iff, Ascii.eqb_eq, IH. split.
      * intros [-> [post ->]]. now exists post.
      * intros [post H]. injection H as -> ->. split; [reflexivity | now exists post].
Qed.

Lemma str_in_spec (needle hay : string) :
  str_in needle hay = true <-> Contains needle hay.
Proof.
  induction hay as [|c r IH].
  - cbn [str_in]. rewrite orb_false_r, startswith_spec. split.
    + intros [post H]. exists "", post. exact H.
    + intros [pre [post H]]. destruct pre; [now exists post | discriminate].
  - cbn [str_in]. rewrite orb_true_iff, startswith_spec, IH. split.
    + intros [[post H] | [pre [post H]]].
      * exists "", post. exact H.
      * exists (String c pre), post. simpl. now rewrite H.
    + intros [pre [post H]]. destruct pre as [|x pre].
      * left. now exists post.
      * right. injection H as _ H. now exists pre, post.
Qed.

Lemma lower_append (a b : string) : lower (a +:+ b) = lower a +:+ lower b.
Proof. induction a as [|x a IH]; simpl; [reflexivity | now rewrite IH]. Qed.

Lemma lower_split (s a b : string) :
  lower s = a +:+ b -> exists a' b', s = a' +:+ b' /\ lower a' = a /\ lower b' = b.
Proof.
  revert s. induction a as [|x a IH]; intros s H.
  - exists "", s. now repeat split.
  - destruct s as [|y s]; [discriminate |].
    simpl in H. injection H as Hx H.
    destruct (IH s H) as (a' & b' & -> & Ha & Hb).
    exists (String y a'), b'. simpl. now rewrite Hx, Ha, Hb.
Qed.

Lemma contains_lower (needle s : string) :
  Contains needle (lower s) <-> ContainsNoCase needle s.
Proof.
  split.
  - intros (pre & post & H).
    apply lower_split in H as (pre' & r & -> & _ & H).
    apply lower_split in H as (mid & post' & -> & Hm & _).
    now exists pre', mid, post'.
  - intros (pre & mid & post & -> & <-).
    exists (lower pre), (lower post). now rewrite !lower_append.
Qed.

Lemma str_in_lower (needle s : string) :
  str_in needle (lower s) = true <-> ContainsNoCase needle s.
Proof. now rewrite str_in_spec, contains_lower. Qed.

Lemma str_in_lower_false (needle s : string) :
  str_in needle (lower s) = false <-> ~ ContainsNoCase needle s.
Proof. rewrite <- str_in_lower. now destruct (str_in needle (lower s)). Qed.

Lemma startswith_false (s p : string) :
  startswith s p = false <-> ~ StartsWith p s.
Proof. rewrite <- startswith_spec. now destruct (startswith s p). Qed.

Lemma contains_append_r (needle pre s : string) :
  Contains needle s -> Contains needle (pre +:+ s).
Proof.
  intros (a & b & ->). exists (pre +:+ a), b. now rewrite append_assoc.
Qed.

Lemma contains_append_l (needle s post : string) :
  Contains needle s -> Contains needle (s +:+ post).
Proof.
  intros (a & b & ->). exists a, (b +:+ post). now rewrite !append_assoc.
Qed.

Lemma contains_here (needle post : string) : Contains needle (needle +:+ post).
Proof. now exists "", post. Qed.

Lemma append_empty_r (s : string) : s +:+ "" = s.
Proof. induction s as [|c r IH]; simpl; [reflexivity | now rewrite IH]. Qed.

Lemma contains_refl (s : string) : Contains s s.
Proof. exists "", "". simpl. now rewrite append_empty_r. Qed.

(** ** The [try] statement *)

Lemma try_except_return {A} (body : M A) handlers w a w1 :
  body w = (Return a, w1) -> try_except body handlers w = (Return a, w1).
Proof. unfold try_except. now intros ->. Qed.

(** The first clause that matches handles the exception, and what its
    handler does is what the statement does: the later clauses are not
    tried on an exception the handler raises. *)
Lemma try_except_caught {A} (body : M A) c (h : exn -> M A) rest w e w1 :
  body w = (Raise e, w1) -> isinstance e c = true ->
  try_except body ((c, h) :: rest) w = h e w1.
Proof. unfold try_except. intros -> Hc. simpl. now rewrite Hc. Qed.

Lemma try_except_skip {A} (body : M A) c (h : exn -> M A) rest w e w1 :
  body w = (Raise e, w1) -> isinstance e c = false ->
  try_except body ((c, h) :: rest) w = try_except body rest w.
Proof. unfold try_except. intros -> Hc. simpl. now rewrite Hc. Qed.

Lemma try_except_uncaught {A} (body : M A) w e w1 :
  body w = (Raise e, w1) -> try_except body [] w = (Raise e, w1).
Proof. unfold try_except. now intros ->. Qed.

(** ** The dispatcher *)

Lemma server_call_wire srv method args w :
  wire (snd (server_call (Some srv) method args w))
  = (wire w ++ [(method, args)])%list.
Proof.
  unfold server_call. now destruct (request srv method args (remote w)).
Qed.

Lemma call_body self method args w :
  (let! result := server_call (_server self) method args in ret result) w
  = server_call (_server self) method args w.
Proof.
  unfold bind, ret.
  now destruct (server_call (_server self) method args w) as [[v|e] w1].
Qed.

Lemma call_return self method args w v w1 :
  server_call (_server self) method args w = (Return v, w1) ->
  _call self method args w = (Return v, w1).
Proof.
  intros H. unfold _call. apply try_except_return. now rewrite call_body.
Qed.

Lemma call_fault self method args w code text w1 :
  server_call (_server self) method args w = (Raise (Fault code text), w1) ->
  exists k msg,
    _call self method args w
    = (Raise (FldigiExc k msg (Some (Fault code text))), w1) /\
    decision_table method (Fault code text) k /\
    Contains method msg.
Proof.
  intros H. unfold _call.
  rewrite (try_except_caught _ _ _ _ _ (Fault code text) w1);
    [| now rewrite call_body | reflexivity].
  assert (Hf : protocol_fault (Fault code text)) by now exists code, text.
  destruct (str_in "rig" (lower method)) eqn:Hrig.
  { do 2 eexists. split; [reflexivity |]. split.
    - apply row_rig; [exact Hf | now apply str_in_lower].
    - apply contains_append_r, contains_here. }
  destruct (str_in "modem" (lower method)) eqn:Hmodem.
  { do 2 eexists. split; [reflexivity |]. split.
    - apply row_modem; [exact Hf | now apply str_in_lower_false | now apply str_in_lower].
    - apply contains_append_r, contains_here. }
  destruct (startswith method "main.") eqn:Hmain.
  { do 2 eexists. split; [reflexivity |]. split.
    - apply row_main; [exact Hf | now apply str_in_lower_false ..
                      | now apply startswith_spec].
    - apply contains_append_r, contains_here. }
  do 2 eexists. split; [reflexivity |]. split.
  - apply row_other_fault; [exact Hf | now apply str_in_lower_false ..
                           | now apply startswith_false].
  - apply contains_append_r, contains_here.
Qed.

Lemma call_transport_failure self method args w e w1 :
  server_call (_server self) method args w = (Raise e, w1) ->
  ~ protocol_fault e ->
  _call self method args w
  = (Raise (FldigiExc FldigiXmlrpcError
              ("XML-RPC call failed for " +:+ method +:+ ": " +:+ str e)
              (Some e)), w1).
Proof.
  intros H Hnf. unfold _call.
  rewrite (try_except_skip _ _ _ _ _ e w1); [| now rewrite call_body |].
  - now rewrite (try_except_caught _ _ _ _ _ e w1); [| now rewrite call_body |].
  - destruct e; [| reflexivity ..]. exfalso. apply Hnf. now eexists _, _.
Qed.

Lemma protocol_fault_dec (e : exn) : {protocol_fault e} + {~ protocol_fault e}.
Proof.
  destruct e as [code text| |].
  - left. now exists code, text.
  - right. intros (c & t & H). discriminate.
  - right. intros (c & t & H). discriminate.
Qed.

Lemma decision_table_functional method failure k1 k2 :
  decision_table method failure k1 -> decision_table method failure k2 -> k1 = k2.
Proof. intros H1 H2. destruct H1; destruct H2; (reflexivity || contradiction). Qed.

Lemma call_failure self method args w e w1 :
  server_call (_server self) method args w = (Raise e, w1) ->
  exists k msg,
    _call self method args w = (Raise (FldigiExc k msg (Some e)), w1) /\
    decision_table method e k /\
    Contains method msg.
Proof.
  intros H. destruct (protocol_fault_dec e) as [(code & text & ->) | Hnf].
  - now apply call_fault.
  - do 2 eexists. split; [now apply call_transport_failure |]. split.
    + now apply row_transport.
    + apply contains_append_r, contains_here.
Qed.

Lemma call_raise_inv self method args w x w1 :
  _call self method args w = (Raise x, w1) ->
  exists e, server_call (_server self) method args w = (Raise e, w1).
Proof.
  intros H.
  destruct (server_call (_server self) method args w) as [[v|e] w2] eqn:Hs.
  - rewrite (call_return _ _ _ _ _ _ Hs) in H. discriminate.
  - destruct (call_failure _ _ _ _ _ _ Hs) as (k & msg & Hc & _).
    rewrite Hc in H. injection H as _ <-. now exists e.
Qed.

Lemma call_wire self method args w :
  connected self -> issues (_call self method args) w [(method, args)].
Proof.
  intros [srv Hsrv]. unfold issues.
  pose proof (server_call_wire srv method args w) as Hw. rewrite <- Hsrv in Hw.
  destruct (server_call (_server self) method args w) as [[v|e] w1] eqn:Hs.
  - now rewrite (call_return _ _ _ _ _ _ Hs).
  - destruct (call_failure _ _ _ _ _ _ Hs) as (k & msg & -> & _). exact Hw.
Qed.

(** ** Construction *)

Lemma init_failure host port timeout w failure :
  ServerProxy_init ("http://" +:+ host +:+ ":" +:+ str_int port) timeout
  = inl failure ->
  __init__ host port timeout w
  = (Raise (FldigiExc FldigiXmlrpcError
              ("Failed to connect to FLDIGI at "
               +:+ ("http://" +:+ host +:+ ":" +:+ str_int port)
               +:+ ": " +:+ str failure)
              None), w).
Proof.
  intros H. unfold __init__, _connect, try_except. cbn [_host _port _timeout].
  now rewrite H.
Qed.

Lemma init_success host port timeout w srv :
  ServerProxy_init ("http://" +:+ host +:+ ":" +:+ str_int port) timeout
  = inr srv ->
  __init__ host port timeout w = (Return (mkFldigi host port timeout (Some srv)), w).
Proof.
  intros H. unfold __init__, _connect, try_except. cbn [_host _port _timeout].
  now rewrite H.
Qed.

(** C1.  Whatever the method name and whatever failure the transport raises
    during a dispatcher call, the dispatcher raises the typed error that the
    decision table gives, first match wins: a protocol fault on a method
    whose name contains "rig" in any case raises [FldigiRigError], else
    "modem" raises [FldigiModemError], else a name starting with "main."
    raises [FldigiMainError], else [FldigiXmlrpcError]; a failure that is not
    a protocol fault raises [FldigiXmlrpcError] whatever the name.  The table
    gives one kind only. *)
Theorem call_classifies_failure self method args w failure w1 :
  server_call (_server self) method args w = (Raise failure, w1) ->
  exists kind msg,
    _call self method args w = (Raise (FldigiExc kind msg (Some failure)), w1) /\
    decision_table method failure kind /\
    (forall kind', decision_table method failure kind' -> kind' = kind).
Proof.
  intros H. destruct (call_failure _ _ _ _ _ _ H) as (kind & msg & Hc & Ht & _).
  exists kind, msg. split; [exact Hc |]. split; [exact Ht |].
  intros kind' Ht'. exact (decision_table_functional _ _ _ _ Ht' Ht).
Qed.

(** C9.  A dispatcher call that fails raises one typed error: its class is
    the one the decision table gives for the failure of the transport, and
    its cause is that failure itself.  So the [FldigiRigError],
    [FldigiModemError] or [FldigiMainError] raised in the handler of
    protocol faults is what the caller gets; the catch-all clause that
    follows does not catch it and wrap it in a [FldigiXmlrpcError]. *)
Theorem call_raises_one_typed_error self method args w x w1 :
  _call self method args w = (Raise x, w1) ->
  exists failure kind msg,
    server_call (_server self) method args w = (Raise failure, w1) /\
    x = FldigiExc kind msg (Some failure) /\
    decision_table method failure kind /\
    (protocol_fault failure -> forall k m c, failure <> FldigiExc k m c).
Proof.
  intros H. destruct (call_raise_inv _ _ _ _ _ _ H) as (failure & Hs).
  destruct (call_failure _ _ _ _ _ _ Hs) as (kind & msg & Hc & Ht & _).
  rewrite Hc in H. injection H as <-.
  exists failure, kind, msg. repeat split; try assumption.
  intros (code & text & ->) k m c. discriminate.
Qed.

(** C7, amended.  Every typed error the dispatcher raises carries the
    remote method name in its message and has the failure of the transport
    as its cause, and every failure of the transport makes the dispatcher
    raise.  The error raised at construction carries in its message the URL
    of the connection and the text of the failure of the constructor of the
    proxy; no remote method is involved there. *)
Theorem failures_name_their_origin :
  (forall self method args w failure w1,
     server_call (_server self) method args w = (Raise failure, w1) ->
     exists kind msg,
       _call self method args w = (Raise (FldigiExc kind msg (Some failure)), w1) /\
       Contains method msg) /\
  (forall self method args w x w1,
     _call self method args w = (Raise x, w1) ->
     exists failure,
       server_call (_server self) method args w = (Raise failure, w1) /\
       cause_of x = Some failure /\
       Contains method (message_of x)) /\
  (forall host port timeout w failure,
     ServerProxy_init ("http://" +:+ host +:+ ":" +:+ str_int port) timeout
     = inl failure ->
     exists msg cause,
       __init__ host port timeout w
       = (Raise (FldigiExc FldigiXmlrpcError msg cause), w) /\
       Contains ("http://" +:+ host +:+ ":" +:+ str_int port) msg /\
       Contains (str failure) msg).
Proof.
  split; [| split].
  - intros self method args w failure w1 H.
    destruct (call_failure _ _ _ _ _ _ H) as (kind & msg & Hc & _ & Hm).
    now exists kind, msg.
  - intros self method args w x w1 H.
    destruct (call_raise_inv _ _ _ _ _ _ H) as (failure & Hs).
    destruct (call_failure _ _ _ _ _ _ Hs) as (kind & msg & Hc & _ & Hm).
    rewrite Hc in H. injection H as <-. now exists failure.
  - intros host port timeout w failure H.
    do 2 eexists. split; [exact (init_failure _ _ _ _ _ H) |]. split.
    + apply contains_append_r, contains_here.
    + do 3 apply contains_append_r. apply contains_refl.
Qed.

(** ** The fallback pairs *)

Lemma call_wire_eq self method args w r w1 :
  connected self -> _call self method args w = (r, w1) ->
  wire w1 = (wire w ++ [(method, args)])%list.
Proof.
  intros Hc H. pose proof (call_wire self method args w Hc) as Hw.
  unfold issues in Hw. now rewrite H in Hw.
Qed.

Lemma call_wire_eq2 self m1 m2 args w r1 w1 r2 w2 :
  connected self ->
  _call self m1 args w = (r1, w1) -> _call self m2 args w1 = (r2, w2) ->
  wire w2 = (wire w ++ [(m1, args); (m2, args)])%list.
Proof.
  intros Hc H1 H2.
  rewrite (call_wire_eq _ _ _ _ _ _ Hc H2), (call_wire_eq _ _ _ _ _ _ Hc H1).
  now rewrite <- app_assoc.
Qed.

(** A getter of the shape [try: return self._call(primary) / except
    FldigiRigError: return self._call(fallback)]. *)
Lemma getter_fallback_pair self primary fallback args :
  connected self ->
  fallback_pair self primary fallback args (fun v => v)
    (try_except (_call self primary args)
       [ (FldigiSub FldigiRigError, fun _ => _call self fallback args) ]).
Proof.
  intros Hc w.
  destruct (_call self primary args w) as [[v|e] w1] eqn:H1.
  - split; [now apply try_except_return | exact (call_wire_eq _ _ _ _ _ _ Hc H1)].
  - destruct (isinstance e (FldigiSub FldigiRigError)) eqn:Hrig.
    + rewrite (try_except_caught _ _ _ _ _ e w1 H1 Hrig).
      destruct (_call self fallback args w1) as [[v|e2] w2] eqn:H2;
        (split; [reflexivity | exact (call_wire_eq2 _ _ _ _ _ _ _ _ _ Hc H1 H2)]).
    + rewrite (try_except_skip _ _ _ _ _ e w1 H1 Hrig).
      split; [now apply try_except_uncaught | exact (call_wire_eq _ _ _ _ _ _ Hc H1)].
Qed.

(** A setter of the shape [try: self._call(primary, v) / except
    FldigiRigError: self._call(fallback, v)]. *)
Lemma setter_fallback_pair self primary fallback args :
  connected self ->
  fallback_pair self primary fallback args (fun _ => tt)
    (try_except (bind (_call self primary args) (fun _ => ret tt))
       [ (FldigiSub FldigiRigError, fun _ =>
            bind (_call self fallback args) (fun _ => ret tt)) ]).
Proof.
  intros Hc w.
  destruct (_call self primary args w) as [[v|e] w1] eqn:H1.
  - split; [| exact (call_wire_eq _ _ _ _ _ _ Hc H1)].
    apply try_except_return. unfold bind. now rewrite H1.
  - assert (Hb : bind (_call self primary args) (fun _ => ret tt) w = (Raise e, w1))
      by (unfold bind; now rewrite H1).
    destruct (isinstance e (FldigiSub FldigiRigError)) eqn:Hrig.
    + rewrite (try_except_caught _ _ _ _ _ e w1 Hb Hrig). unfold bind.
      destruct (_call self fallback args w1) as [[v|e2] w2] eqn:H2;
        (split; [reflexivity | exact (call_wire_eq2 _ _ _ _ _ _ _ _ _ Hc H1 H2)]).
    + rewrite (try_except_skip _ _ _ _ _ e w1 Hb Hrig).
      split; [now apply try_except_uncaught | exact (call_wire_eq _ _ _ _ _ _ Hc H1)].
Qed.

Lemma namespace_frequency :
  Fldigi_namespace !! "frequency"
  = Some (Property (data frequency) (Some frequency_setter)).
Proof. vm_compute. reflexivity. Qed.

Lemma namespace_mode :
  Fldigi_namespace !! "mode" = Some (Property (data mode) (Some mode_setter)).
Proof. vm_compute. reflexivity. Qed.

Lemma namespace_bandwidth :
  Fldigi_namespace !! "bandwidth"
  = Some (Property (data bandwidth) (Some bandwidth_setter)).
Proof. vm_compute. reflexivity. Qed.

(** C2.  For [frequency], [mode] and [bandwidth], the name is bound in the
    class to a property whose getter and setter are fallback pairs from the
    [rig] namespace to the [main] namespace: the [rig] call goes first; when
    it raises [FldigiRigError], and only then, the [main] call with the same
    arguments is made once and the accessor ends as that call ends, with its
    value or with its error; any other error of the [rig] call leaves the
    accessor as it is and no second call is made. *)
Theorem facade_fallback_pairs self name :
  connected self ->
  In name ["frequency"; "mode"; "bandwidth"] ->
  exists fget fset,
    Fldigi_namespace !! name = Some (Property (data fget) (Some fset)) /\
    fallback_pair self ("rig.get_" +:+ name) ("main.get_" +:+ name) []
      (fun v => v) (fget self) /\
    forall v,
      fallback_pair self ("rig.set_" +:+ name) ("main.set_" +:+ name) [v]
        (fun _ => tt) (fset self v).
Proof.
  intros Hc [<- | [<- | [<- | []]]].
  - exists frequency, frequency_setter. split; [exact namespace_frequency |].
    split; [| intros v].
    + exact (getter_fallback_pair self _ _ [] Hc).
    + exact (setter_fallback_pair self _ _ [v] Hc).
  - exists mode, mode_setter. split; [exact namespace_mode |].
    split; [| intros v].
    + exact (getter_fallback_pair self _ _ [] Hc).
    + exact (setter_fallback_pair self _ _ [v] Hc).
  - exists bandwidth, bandwidth_setter. split; [exact namespace_bandwidth |].
    split; [| intros v].
    + exact (getter_fallback_pair self _ _ [] Hc).
    + exact (setter_fallback_pair self _ _ [v] Hc).
Qed.

(** ** Attribute access on the client *)

Lemma dispatches_intro (c : M Value) self method args :
  connected self -> (forall w, c w = _call self method args w) ->
  dispatches c self method args.
Proof.
  intros Hc H w. split; [apply H |]. unfold issues. rewrite H.
  exact (call_wire self method args w Hc).
Qed.

Lemma namespace_rx : Fldigi_namespace !! "rx" = Some (Property (proxy "rx") None).
Proof. vm_compute. reflexivity. Qed.

Lemma namespace_tx : Fldigi_namespace !! "tx" = Some (Property (proxy "tx") None).
Proof. vm_compute. reflexivity. Qed.

Lemma namespace_get_rx :
  Fldigi_namespace !! "get_rx"
  = Some (Function [("start", Some (VInt 0)); ("length", Some VNone)] get_rx).
Proof. vm_compute. reflexivity. Qed.

(** The namespace a proxy property of the client is bound to. *)
Lemma namespace_proxy pname :
  In pname dynamic_surface ->
  Fldigi_namespace !! pname
  = Some (Property
            (proxy (if String.eqb pname "modem_olivia" then "modem.olivia" else pname))
            None).
Proof.
  unfold dynamic_surface. intros H.
  repeat (destruct H as [<- | H]; [vm_compute; reflexivity |]).
  destruct H.
Qed.

Lemma getattr_proxy self pname w :
  In pname dynamic_surface ->
  getattr (OClient self) pname w
  = (Return (OProxy (mkNamespaceProxy self
               (if String.eqb pname "modem_olivia" then "modem.olivia" else pname))),
     w).
Proof.
  intros H. unfold getattr, Fldigi_getattr. now rewrite (namespace_proxy _ H).
Qed.

(** The body of the [def rx] and of the [def tx] of the class, had the name
    stayed bound to them. *)
Lemma rx_def self w : rx self w = _call self "main.rx" [] w.
Proof. reflexivity. Qed.

Lemma get_rx_positional self args w :
  call_method (OClient self) "get_rx" args [] w
  = match args with
    | [] => get_rx self (VInt 0) VNone w
    | [start] => get_rx self start VNone w
    | [start; length] => get_rx self start length w
    | _ => (Raise (PyError "TypeError" (signature_error "get_rx" args [])), w)
    end.
Proof.
  unfold call_method, getattr, Fldigi_getattr. rewrite namespace_get_rx.
  destruct args as [|a [|b [|c r]]]; reflexivity.
Qed.

Lemma get_rx_keyword_start self start w :
  call_method (OClient self) "get_rx" [] [("start", start)] w
  = get_rx self start VNone w.
Proof.
  unfold call_method, getattr, Fldigi_getattr. now rewrite namespace_get_rx.
Qed.

Lemma get_rx_keyword_both self start length w :
  call_method (OClient self) "get_rx" [] [("start", start); ("length", length)] w
  = get_rx self start length w.
Proof.
  unfold call_method, getattr, Fldigi_getattr. now rewrite namespace_get_rx.
Qed.

Lemma py_or_int (L : Z) : py_or (VInt L) (VInt 0) = VInt L.
Proof.
  unfold py_or. simpl. destruct (Z.eqb_spec L 0) as [-> | _]; reflexivity.
Qed.

(** ** Attribute access on a proxy *)

Lemma proxy_call_forwarded p name args w :
  name <> "_client" -> name <> "_namespace" -> ordinary_attr name = false ->
  call_method (OProxy p) name args [] w
  = _call (_client p) (_namespace p +:+ "." +:+ name) args w.
Proof.
  intros H1 H2 H3. unfold call_method, getattr, NamespaceProxy_getattr.
  apply String.eqb_neq in H1, H2. now rewrite H1, H2, H3.
Qed.

(** C3, as the code behaves.  On a client, [rx] and [tx] are the proxy
    properties bound later in the class body, not the methods bound first:
    [client.rx] evaluates to the proxy of the namespace ["rx"], and calling
    it raises [TypeError] without any request to the transport; the same
    holds for [client.tx]. *)
Theorem rx_tx_resolve_to_proxies self w :
  getattr (OClient self) "rx" w = (Return (OProxy (mkNamespaceProxy self "rx")), w) /\
  getattr (OClient self) "tx" w = (Return (OProxy (mkNamespaceProxy self "tx")), w) /\
  call_method (OClient self) "rx" [] [] w
  = (Raise (PyError "TypeError" "'NamespaceProxy' object is not callable"), w) /\
  call_method (OClient self) "tx" [] [] w
  = (Raise (PyError "TypeError" "'NamespaceProxy' object is not callable"), w).
Proof.
  unfold call_method, getattr, Fldigi_getattr, bind.
  rewrite namespace_rx, namespace_tx. now repeat split.
Qed.

(** C4, amended.  For every namespace proxy, every positional argument list
    and every attribute name that ordinary lookup does not resolve (a name
    other than the fields [_client] and [_namespace] of the proxy and the
    names the class and [object] define), calling the attribute of the proxy
    is the same run as the dispatcher call of ["<prefix>.<attribute>"] with
    the same arguments: the same request, the same result or error. *)
Theorem proxy_access_is_dispatch p name args :
  name <> "_client" -> name <> "_namespace" -> ordinary_attr name = false ->
  proxy_equivalent_to_dispatch p name args.
Proof. intros H1 H2 H3 w. now apply proxy_call_forwarded. Qed.

(** C5.  On a connected client, [get_rx(start)] is the dispatcher call
    [text.get_rx(start, 0, 0)] and [get_rx(start, L)], for an integer [L],
    is [text.get_rx(start, 0, L)], with the arguments given by position or
    by keyword; each is the one request sent. *)
Theorem get_rx_wire_call self start :
  connected self ->
  dispatches (call_method (OClient self) "get_rx" [start] [])
    self "text.get_rx" [start; VInt 0; VInt 0] /\
  dispatches (call_method (OClient self) "get_rx" [] [("start", start)])
    self "text.get_rx" [start; VInt 0; VInt 0] /\
  (forall L : Z,
     dispatches (call_method (OClient self) "get_rx" [start; VInt L] [])
       self "text.get_rx" [start; VInt 0; VInt L]) /\
  (forall L : Z,
     dispatches
       (call_method (OClient self) "get_rx" [] [("start", start); ("length", VInt L)])
       self "text.get_rx" [start; VInt 0; VInt L]).
Proof.
  intros Hc. split; [| split; [| split]]; try intros L;
    apply dispatches_intro; try exact Hc; intros w.
  - now rewrite get_rx_positional.
  - now rewrite get_rx_keyword_start.
  - rewrite get_rx_positional. unfold get_rx. now rewrite py_or_int.
  - rewrite get_rx_keyword_both. unfold get_rx. now rewrite py_or_int.
Qed.

(** C6, amended.  For every proxy name of the dynamic surface and every
    attribute that ordinary lookup does not resolve, [client.<proxy>.<a>(...)]
    is the dispatcher call of ["<namespace>.<a>"], where the namespace is the
    name of the proxy, except for [modem_olivia], whose namespace is
    ["modem.olivia"]. *)
Theorem proxies_forward_to_namespace self pname name :
  In pname dynamic_surface ->
  name <> "_client" -> name <> "_namespace" -> ordinary_attr name = false ->
  forwards_to self pname name
    ((if String.eqb pname "modem_olivia" then "modem.olivia" else pname)
     +:+ "." +:+ name).
Proof.
  intros Hp H1 H2 H3 args w. unfold call_method2, bind.
  rewrite (getattr_proxy self pname w Hp).
  now rewrite proxy_call_forwarded.
Qed.

(** C10.  [get_rx] with the length [0] is the same run as [get_rx] without a
    length: both are the dispatcher call [text.get_rx(start, 0, 0)], which
    asks for the whole remainder of the buffer. *)
Theorem get_rx_zero_length_is_no_length self start w :
  call_method (OClient self) "get_rx" [start; VInt 0] [] w
  = call_method (OClient self) "get_rx" [start] [] w /\
  call_method (OClient self) "get_rx" [] [("start", start); ("length", VInt 0)] w
  = call_method (OClient self) "get_rx" [] [("start", start)] w /\
  call_method (OClient self) "get_rx" [start; VInt 0] [] w
  = _call self "text.get_rx" [start; VInt 0; VInt 0] w.
Proof.
  rewrite !get_rx_positional, get_rx_keyword_both, get_rx_keyword_start.
  now repeat split.
Qed.

(** ** The namespace of the class *)

Lemma fold_insert_lookup {A} (body : list (string * A)) (m : gmap string A)
    (name : string) (found : option A) :
  m !! name = found ->
  fold_left (fun ns b => <[fst b := snd b]> ns) body m !! name
  = fold_left (fun found b => if String.eqb (fst b) name then Some (snd b) else found)
      body found.
Proof.
  revert m found. induction body as [|[k v] body IH]; intros m found H; simpl.
  - exact H.
  - apply IH. destruct (String.eqb_spec k name) as [-> | Hne].
    + apply lookup_insert_eq.
    + rewrite lookup_insert_ne; [exact H | exact Hne].
Qed.

Lemma namespace_last_binding name :
  Fldigi_namespace !! name = last_binding name Fldigi_body.
Proof. apply fold_insert_lookup, lookup_empty. Qed.

(** Case analysis on an attribute name against the names of the class
    body, latest binding first. *)
Ltac by_binding name :=
  rewrite (namespace_last_binding name);
  unfold last_binding, Fldigi_body; cbn [fold_left fst snd];
  repeat match goal with
         | |- context [String.eqb ?s name] =>
             destruct (String.eqb_spec s name) as [<- | ?]
         end.

(** X1.  The public names that the class binds to a method are [tune],
    [abort], [add_tx], [clear_rx], [clear_tx] and [get_rx], and no other;
    [rx] and [tx] are not among them. *)
Theorem methods_of_the_client name :
  (exists params body, Fldigi_namespace !! name = Some (Function params body))
  <-> In name public_methods.
Proof.
  unfold public_methods. by_binding name;
    (split;
     [ intros (params & body & H); try discriminate H; simpl; tauto
     | intros H; simpl in H;
       try exact (ex_intro _ _ (ex_intro _ _ eq_refl));
       exfalso; intuition congruence ]).
Qed.

(** X2.  The properties of the client that have a setter are [frequency],
    [mode], [bandwidth] and [squelch], and no other name has one. *)
Theorem setters_of_the_client name :
  is_Some (Fldigi_setter name) <-> In name assignable_properties.
Proof.
  unfold Fldigi_setter, assignable_properties. by_binding name;
    (split;
     [ intros [f H]; try discriminate H; simpl; tauto
     | intros H; simpl in H; try (eexists; reflexivity);
       exfalso; intuition congruence ]).
Qed.

(** ** The dispatcher and the constructor, seen from the caller *)

(** X3.  A dispatcher call changes the world as the one transport call it
    makes does, and no more; when the transport returns a value, the
    dispatcher returns that value unchanged; on a connected client the
    request is logged once, whether the call succeeds or fails. *)
Theorem call_is_one_transport_call self method args w :
  connected self ->
  snd (_call self method args w) = snd (server_call (_server self) method args w) /\
  issues (_call self method args) w [(method, args)] /\
  (forall v w1,
     server_call (_server self) method args w = (Return v, w1) ->
     _call self method args w = (Return v, w1)).
Proof.
  intros Hc. split; [| split].
  - destruct (server_call (_server self) method args w) as [[v|e] w1] eqn:Hs.
    + now rewrite (call_return _ _ _ _ _ _ Hs).
    + now destruct (call_failure _ _ _ _ _ _ Hs) as (k & msg & -> & _).
  - now apply call_wire.
  - intros v w1. apply call_return.
Qed.

(** X4.  Whatever a dispatcher call or the constructor raises is an
    instance of [FldigiError]: a caller that catches [FldigiError] catches
    every failure of the two. *)
Theorem raised_errors_are_FldigiError :
  (forall self method args w x w1,
     _call self method args w = (Raise x, w1) -> isinstance x FldigiError = true) /\
  (forall host port timeout w x w1,
     __init__ host port timeout w = (Raise x, w1) -> isinstance x FldigiError = true).
Proof.
  split.
  - intros self method args w x w1 H.
    destruct (call_raise_inv _ _ _ _ _ _ H) as (failure & Hs).
    destruct (call_failure _ _ _ _ _ _ Hs) as (k & msg & Hc & _).
    rewrite Hc in H. now injection H as <-.
  - intros host port timeout w x w1 H.
    destruct (ServerProxy_init ("http://" +:+ host +:+ ":" +:+ str_int port) timeout)
      as [failure | srv] eqn:Hi.
    + rewrite (init_failure _ _ _ _ _ Hi) in H. now injection H as <-.
    + rewrite (init_success _ _ _ _ _ Hi) in H. discriminate H.
Qed.

(** ** The methods and the plain properties *)

Lemma ends_as_wire {A} (c : M A) self method args (f : Value -> A) w :
  connected self -> ends_as c (_call self method args) f w ->
  issues c w [(method, args)].
Proof.
  intros Hc H. unfold issues. rewrite H.
  pose proof (call_wire self method args w Hc) as Hw. unfold issues in Hw.
  now destruct (_call self method args w) as [[v|e] w1].
Qed.

Lemma discard_ends_as self method args w :
  ends_as (bind (_call self method args) (fun _ => ret VNone))
    (_call self method args) (fun _ => VNone) w.
Proof.
  unfold ends_as, bind. now destruct (_call self method args w) as [[v|e] w1].
Qed.

Lemma data_ends_as (fget : Fldigi -> M Value) self w :
  ends_as (data fget self) (fget self) OValue w.
Proof.
  unfold ends_as, data, bind. now destruct (fget self w) as [[v|e] w1].
Qed.

(** X6.  [tune()], [abort()], [clear_rx()] and [clear_tx()] each make the
    dispatcher call of their remote method without arguments, once, and
    return [None] whatever the remote side answered; an error of the call is
    the error of the method. *)
Theorem void_methods_discard_the_answer self name method w :
  connected self -> In (name, method) void_methods ->
  ends_as (call_method (OClient self) name [] []) (_call self method [])
    (fun _ => VNone) w /\
  issues (call_method (OClient self) name [] []) w [(method, [])].
Proof.
  intros Hc Hin.
  assert (H : ends_as (call_method (OClient self) name [] []) (_call self method [])
                (fun _ => VNone) w).
  { unfold void_methods in Hin.
    repeat (destruct Hin as [Hin | Hin]; [injection Hin as <- <-; apply discard_ends_as |]).
    destruct Hin. }
  split; [exact H | exact (ends_as_wire _ _ _ _ _ _ Hc H)].
Qed.

(** X7.  [add_tx(text)] makes the dispatcher call [text.add_tx(text)], with
    the text as it was given, by position or by keyword, and returns [None];
    [add_tx()] without a text raises [TypeError] and sends nothing. *)
Theorem add_tx_sends_the_text self text w :
  connected self ->
  ends_as (call_method (OClient self) "add_tx" [text] [])
    (_call self "text.add_tx" [text]) (fun _ => VNone) w /\
  ends_as (call_method (OClient self) "add_tx" [] [("text", text)])
    (_call self "text.add_tx" [text]) (fun _ => VNone) w /\
  issues (call_method (OClient self) "add_tx" [text] []) w [("text.add_tx", [text])] /\
  call_method (OClient self) "add_tx" [] [] w
  = (Raise (PyError "TypeError" (signature_error "add_tx" [] [])), w).
Proof.
  intros Hc.
  assert (H : ends_as (call_method (OClient self) "add_tx" [text] [])
                (_call self "text.add_tx" [text]) (fun _ => VNone) w)
    by apply discard_ends_as.
  split; [exact H |]. split; [apply discard_ends_as |].
  split; [exact (ends_as_wire _ _ _ _ _ _ Hc H) | reflexivity].
Qed.

(** X8.  The properties [squelch], [signal_strength], [rx_state] and
    [tx_state] read one remote method each, once: the value of the call is
    the value of the property and an error of the call is raised as it is,
    with no second request.  Assigning to [squelch] makes the one call
    [main.set_squelch_level(level)]. *)
Theorem plain_properties_make_one_call self name method w :
  connected self -> In (name, method) plain_properties ->
  ends_as (getattr (OClient self) name) (_call self method []) OValue w /\
  issues (getattr (OClient self) name) w [(method, [])] /\
  exists fset,
    Fldigi_setter "squelch" = Some fset /\
    forall level,
      ends_as (fset self level) (_call self "main.set_squelch_level" [level])
        (fun _ => tt) w /\
      issues (fset self level) w [("main.set_squelch_level", [level])].
Proof.
  intros Hc Hin.
  assert (H : ends_as (getattr (OClient self) name) (_call self method []) OValue w).
  { unfold plain_properties in Hin.
    repeat (destruct Hin as [Hin | Hin]; [injection Hin as <- <-; apply data_ends_as |]).
    destruct Hin. }
  split; [exact H |]. split; [exact (ends_as_wire _ _ _ _ _ _ Hc H) |].
  exists squelch_setter. split; [vm_compute; reflexivity |]. intros level.
  assert (Hs : ends_as (squelch_setter self level)
                 (_call self "main.set_squelch_level" [level]) (fun _ => tt) w).
  { unfold ends_as, squelch_setter, bind.
    now destruct (_call self "main.set_squelch_level" [level] w) as [[v|e] w1]. }
  split; [exact Hs | exact (ends_as_wire _ _ _ _ _ _ Hc Hs)].
Qed.

(** ** What the client and the proxies do not forward *)

(** X9.  A call on a proxy with a keyword argument raises [TypeError]
    before the dispatcher runs: nothing is sent, and the error is not one of
    the module. *)
Theorem proxy_call_rejects_keywords p name args kw kwargs w :
  name <> "_client" -> name <> "_namespace" -> ordinary_attr name = false ->
  call_method (OProxy p) name args (kw :: kwargs) w
  = (Raise (PyError "TypeError" (signature_error "_call" args (kw :: kwargs))), w)
  /\ isinstance (PyError "TypeError" (signature_error "_call" args (kw :: kwargs)))
       FldigiError = false.
Proof.
  intros H1 H2 H3. split; [| reflexivity].
  unfold call_method, getattr, NamespaceProxy_getattr.
  apply String.eqb_neq in H1, H2. now rewrite H1, H2, H3.
Qed.

(** X10.  The client itself forwards nothing: a name that is no member of
    the class, no instance attribute and not resolved by ordinary lookup
    raises [AttributeError], and nothing is sent. *)
Theorem client_unknown_attribute self name w :
  ~ In name (public_methods ++ assignable_properties ++ read_only_properties
             ++ dynamic_surface)%list ->
  ~ In name instance_names ->
  ordinary_attr name = false ->
  getattr (OClient self) name w
  = (Raise (PyError "AttributeError"
              ("'Fldigi' object has no attribute '" +:+ name +:+ "'")), w).
Proof.
  intros Hm Hi Ho. unfold getattr, Fldigi_getattr.
  assert (Hn : Fldigi_namespace !! name = None).
  { by_binding name; try reflexivity; exfalso; apply Hm; simpl; tauto. }
  assert (Ha : instance_attr self name = None).
  { unfold instance_attr.
    repeat match goal with
           | |- context [String.eqb name ?s] =>
               destruct (String.eqb_spec name s) as [-> | ?]
           end; try reflexivity; exfalso; apply Hi; simpl; tauto. }
  now rewrite Hn, Ha, Ho.
Qed.

(** ** Protocol faults through the proxies *)

Lemma call_fault_class self method args w code text w1 :
  server_call (_server self) method args w = (Raise (Fault code text), w1) ->
  _call self method args w
  = (Raise (FldigiExc
              (if str_in "rig" (lower method) then FldigiRigError
               else if str_in "modem" (lower method) then FldigiModemError
               else if startswith method "main." then FldigiMainError
               else FldigiXmlrpcError)
              ((if str_in "rig" (lower method) then "Rig error in "
                else if str_in "modem" (lower method) then "Modem error in "
                else if startswith method "main." then "Main error in "
                else "XML-RPC fault in ") +:+ method +:+ ": " +:+ text)
              (Some (Fault code text))), w1).
Proof.
  intros H. unfold _call.
  rewrite (try_except_caught _ _ _ _ _ (Fault code text) w1);
    [| now rewrite call_body | reflexivity].
  destruct (str_in "rig" (lower method)); [reflexivity |].
  destruct (str_in "modem" (lower method)); [reflexivity |].
  now destruct (startswith method "main.").
Qed.

(** X11.  Every call through [client.rig] that the remote side rejects with
    a protocol fault raises [FldigiRigError], whatever the attribute. *)
Theorem rig_proxy_fault_is_RigError self name args w code text w1 :
  name <> "_client" -> name <> "_namespace" -> ordinary_attr name = false ->
  server_call (_server self) ("rig." +:+ name) args w = (Raise (Fault code text), w1) ->
  call_method2 (OClient self) "rig" name args [] w
  = (Raise (FldigiExc FldigiRigError
              ("Rig error in rig." +:+ name +:+ ": " +:+ text)
              (Some (Fault code text))), w1).
Proof.
  intros H1 H2 H3 Hs. unfold call_method2, bind.
  rewrite (getattr_proxy self "rig" w) by (unfold dynamic_surface; simpl; tauto).
  cbn [String.eqb Ascii.eqb Bool.eqb].
  rewrite proxy_call_forwarded by assumption.
  cbn [_client _namespace]. change ("rig" +:+ "." +:+ name) with ("rig." +:+ name).
  now rewrite (call_fault_class _ _ _ _ _ _ _ Hs).
Qed.

(** X12.  For a call through a proxy of the client whose attribute has
    neither "rig" nor "modem" in it, in any case, the class of the error
    raised for a protocol fault depends on the proxy alone: [rig] gives
    [FldigiRigError], [modem] and [modem_olivia] give [FldigiModemError],
    [main] gives [FldigiMainError] and every other proxy gives
    [FldigiXmlrpcError]. *)
Theorem proxy_fault_class self pname name args w code text w1 :
  In pname dynamic_surface ->
  name <> "_client" -> name <> "_namespace" -> ordinary_attr name = false ->
  ~ ContainsNoCase "rig" name -> ~ ContainsNoCase "modem" name ->
  server_call (_server self)
    ((if String.eqb pname "modem_olivia" then "modem.olivia" else pname)
     +:+ "." +:+ name) args w
  = (Raise (Fault code text), w1) ->
  exists msg,
    call_method2 (OClient self) pname name args [] w
    = (Raise (FldigiExc (fault_class_of_proxy pname) msg (Some (Fault code text))), w1).
Proof.
  intros Hp H1 H2 H3 Hrig Hmodem Hs. unfold call_method2, bind.
  rewrite (getattr_proxy self pname w Hp).
  rewrite proxy_call_forwarded by assumption. cbn [_client _namespace].
  rewrite (call_fault_class _ _ _ _ _ _ _ Hs).
  apply str_in_lower_false in Hrig, Hmodem.
  unfold dynamic_surface in Hp.
  repeat (destruct Hp as [<- | Hp];
          [cbn; rewrite ?Hrig, ?Hmodem; eexists; reflexivity |]).
  destruct Hp.
Qed.

(** ** The fallback pairs, seen from the transport *)

Lemma fallback_after_fault {A} self primary fallback args (f : Value -> A)
    (run : M A) w code text w1 :
  fallback_pair self primary fallback args f run ->
  str_in "rig" (lower primary) = true ->
  server_call (_server self) primary args w = (Raise (Fault code text), w1) ->
  ends_as (fun _ => run w) (_call self fallback args) f w1.
Proof.
  intros Hp Hrig Hs. specialize (Hp w). unfold ends_as.
  rewrite (call_fault_class _ _ _ _ _ _ _ Hs), Hrig in Hp. cbn in Hp.
  destruct (_call self fallback args w1) as [[v|e] w2]; now destruct Hp.
Qed.

Lemma no_fallback_after_transport_failure {A} self primary fallback args
    (f : Value -> A) (run : M A) w failure w1 :
  fallback_pair self primary fallback args f run ->
  server_call (_server self) primary args w = (Raise failure, w1) ->
  ~ protocol_fault failure ->
  run w = (Raise (FldigiExc FldigiXmlrpcError
                    ("XML-RPC call failed for " +:+ primary +:+ ": " +:+ str failure)
                    (Some failure)), w1).
Proof.
  intros Hp Hs Hnf. specialize (Hp w).
  rewrite (call_transport_failure _ _ _ _ _ _ Hs Hnf) in Hp. cbn in Hp.
  now destruct Hp.
Qed.

Lemma getattr_fallback_property self name :
  connected self -> In name ["frequency"; "mode"; "bandwidth"] ->
  exists fget fset,
    (forall w, getattr (OClient self) name w = data fget self w) /\
    Fldigi_setter name = Some fset /\
    fallback_pair self ("rig.get_" +:+ name) ("main.get_" +:+ name) []
      (fun v => v) (fget self) /\
    forall v,
      fallback_pair self ("rig.set_" +:+ name) ("main.set_" +:+ name) [v]
        (fun _ => tt) (fset self v).
Proof.
  intros Hc [<- | [<- | [<- | []]]].
  - exists frequency, frequency_setter. split; [reflexivity |].
    split; [vm_compute; reflexivity |]. split; [| intros v].
    + exact (getter_fallback_pair self _ _ [] Hc).
    + exact (setter_fallback_pair self _ _ [v] Hc).
  - exists mode, mode_setter. split; [reflexivity |].
    split; [vm_compute; reflexivity |]. split; [| intros v].
    + exact (getter_fallback_pair self _ _ [] Hc).
    + exact (setter_fallback_pair self _ _ [v] Hc).
  - exists bandwidth, bandwidth_setter. split; [reflexivity |].
    split; [vm_compute; reflexivity |]. split; [| intros v].
    + exact (getter_fallback_pair self _ _ [] Hc).
    + exact (setter_fallback_pair self _ _ [v] Hc).
Qed.

Lemma rig_prefix (name : string) (s : string) :
  str_in "rig" (lower ("rig." +:+ s +:+ name)) = true.
Proof. reflexivity. Qed.

(** X13.  Reading [frequency], [mode] or [bandwidth]: a protocol fault on
    the [rig] call is what makes the client ask the [main] namespace; a
    failure of the transport that is no protocol fault (a timeout, a refused
    connection) ends the read with [FldigiXmlrpcError] for the [rig] method,
    and the [main] namespace is not asked. *)
Theorem read_falls_back_on_fault_only self name w failure w1 :
  connected self -> In name ["frequency"; "mode"; "bandwidth"] ->
  server_call (_server self) ("rig.get_" +:+ name) [] w = (Raise failure, w1) ->
  (protocol_fault failure ->
   ends_as (fun _ => getattr (OClient self) name w)
     (_call self ("main.get_" +:+ name) []) OValue w1) /\
  (~ protocol_fault failure ->
   getattr (OClient self) name w
   = (Raise (FldigiExc FldigiXmlrpcError
               ("XML-RPC call failed for rig.get_" +:+ name +:+ ": " +:+ str failure)
               (Some failure)), w1) /\
   wire w1 = (wire w ++ [("rig.get_" +:+ name, [])])%list).
Proof.
  intros Hc Hin Hs.
  destruct (getattr_fallback_property self name Hc Hin) as (fget & fset & Hg & _ & Hp & _).
  split.
  - intros (code & text & ->).
    pose proof (fallback_after_fault _ _ _ _ _ _ _ _ _ _ Hp (rig_prefix name "get_") Hs) as H.
    unfold ends_as in *. rewrite Hg. unfold data, bind. rewrite H.
    now destruct (_call self ("main.get_" +:+ name) [] w1) as [[v|e] w2].
  - intros Hnf.
    pose proof (no_fallback_after_transport_failure _ _ _ _ _ _ _ _ _ Hp Hs Hnf) as H.
    split.
    + rewrite Hg. unfold data, bind. now rewrite H.
    + destruct Hc as [srv Hsrv]. rewrite Hsrv in Hs.
      pose proof (server_call_wire srv ("rig.get_" +:+ name) [] w) as Hw.
      now rewrite Hs in Hw.
Qed.

(** X14.  Assigning to [frequency], [mode] or [bandwidth]: the same; the
    value goes to the [main] method when, and only when, the [rig] method
    was rejected with a protocol fault. *)
Theorem write_falls_back_on_fault_only self name v w failure w1 :
  connected self -> In name ["frequency"; "mode"; "bandwidth"] ->
  server_call (_server self) ("rig.set_" +:+ name) [v] w = (Raise failure, w1) ->
  exists fset,
    Fldigi_setter name = Some fset /\
    (protocol_fault failure ->
     ends_as (fun _ => fset self v w)
       (_call self ("main.set_" +:+ name) [v]) (fun _ => tt) w1) /\
    (~ protocol_fault failure ->
     fset self v w
     = (Raise (FldigiExc FldigiXmlrpcError
                 ("XML-RPC call failed for rig.set_" +:+ name +:+ ": " +:+ str failure)
                 (Some failure)), w1)).
Proof.
  intros Hc Hin Hs.
  destruct (getattr_fallback_property self name Hc Hin) as (fget & fset & _ & Hf & _ & Hp).
  exists fset. split; [exact Hf |]. split.
  - intros (code & text & ->).
    exact (fallback_after_fault _ _ _ _ _ _ _ _ _ _ (Hp v) (rig_prefix name "set_") Hs).
  - intros Hnf.
    exact (no_fallback_after_transport_failure _ _ _ _ _ _ _ _ _ (Hp v) Hs Hnf).
Qed.

(** X15.  When the remote side rejects both the [rig] read and the [main]
    read with protocol faults, the caller gets [FldigiMainError] for the
    [main] method; its message and its cause are made from the second
    fault alone. *)
Theorem read_rejected_twice_is_MainError self name w c1 t1 w1 c2 t2 w2 :
  connected self -> In name ["frequency"; "mode"; "bandwidth"] ->
  server_call (_server self) ("rig.get_" +:+ name) [] w = (Raise (Fault c1 t1), w1) ->
  server_call (_server self) ("main.get_" +:+ name) [] w1 = (Raise (Fault c2 t2), w2) ->
  getattr (OClient self) name w
  = (Raise (FldigiExc FldigiMainError
              ("Main error in main.get_" +:+ name +:+ ": " +:+ t2)
              (Some (Fault c2 t2))), w2).
Proof.
  intros Hc Hin Hs1 Hs2.
  destruct (getattr_fallback_property self name Hc Hin) as (fget & fset & Hg & _ & Hp & _).
  pose proof (fallback_after_fault _ _ _ _ _ _ _ _ _ _ Hp (rig_prefix name "get_") Hs1) as H.
  unfold ends_as in H. rewrite Hg. unfold data, bind. rewrite H.
  rewrite (call_fault_class _ _ _ _ _ _ _ Hs2).
  destruct Hin as [<- | [<- | [<- | []]]]; reflexivity.
Qed.

(** ** The arguments of [get_rx] *)

(** X16.  [get_rx] always sends three arguments, the second of which is
    [0]: without arguments it asks for [(0, 0, 0)]; a length that counts as
    false ([None], [0], [False], an empty string) is sent as [0], any other
    length is sent as it is; a third positional argument raises [TypeError]
    and sends nothing. *)
Theorem get_rx_arguments self start length w :
  call_method (OClient self) "get_rx" [] [] w
  = _call self "text.get_rx" [VInt 0; VInt 0; VInt 0] w /\
  call_method (OClient self) "get_rx" [start; length] [] w
  = _call self "text.get_rx"
      [start; VInt 0; if truthy length then length else VInt 0] w /\
  call_method (OClient self) "get_rx" [] [("length", length)] w
  = _call self "text.get_rx"
      [VInt 0; VInt 0; if truthy length then length else VInt 0] w /\
  forall extra rest,
    call_method (OClient self) "get_rx" (start :: length :: extra :: rest) [] w
    = (Raise (PyError "TypeError"
                (signature_error "get_rx" (start :: length :: extra :: rest) [])), w).
Proof.
  rewrite !get_rx_positional. split; [reflexivity |]. split; [reflexivity |].
  split; [| reflexivity].
  unfold call_method, getattr, Fldigi_getattr. now rewrite namespace_get_rx.
Qed.

(** ** The errors of the properties *)

Lemma call_error_instance self method args w x w1 :
  _call self method args w = (Raise x, w1) -> isinstance x FldigiError = true.
Proof.
  intros H. destruct (call_raise_inv _ _ _ _ _ _ H) as (failure & Hs).
  destruct (call_failure _ _ _ _ _ _ Hs) as (k & msg & Hc & _).
  rewrite Hc in H. now injection H as <-.
Qed.

Lemma fallback_pair_error_instance {A} self primary fallback args (f : Value -> A)
    (run : M A) w x w1 :
  fallback_pair self primary fallback args f run ->
  run w = (Raise x, w1) -> isinstance x FldigiError = true.
Proof.
  intros Hp H. specialize (Hp w).
  destruct (_call self primary args w) as [[v|e] w2] eqn:H1.
  - destruct Hp as [Hr _]. rewrite Hr in H. discriminate H.
  - destruct (isinstance e (FldigiSub FldigiRigError)).
    + destruct (_call self fallback args w2) as [[v|e2] w3] eqn:H2;
        destruct Hp as [Hr _]; rewrite Hr in H; [discriminate H |].
      injection H as <- <-. exact (call_error_instance _ _ _ _ _ _ H2).
    + destruct Hp as [Hr _]. rewrite Hr in H. injection H as <- <-.
      exact (call_error_instance _ _ _ _ _ _ H1).
Qed.

Lemma data_error_instance (fget : Fldigi -> M Value) self w x w1 :
  (forall y w2, fget self w = (Raise y, w2) -> isinstance y FldigiError = true) ->
  data fget self w = (Raise x, w1) -> isinstance x FldigiError = true.
Proof.
  intros Hf H. unfold data, bind in H.
  destruct (fget self w) as [[v|e] w2] eqn:Hg; [discriminate H |].
  injection H as <- <-. exact (Hf _ _ eq_refl).
Qed.

(** X17.  Reading any of the data properties of a connected client
    ([frequency], [mode], [bandwidth], [squelch], [signal_strength],
    [rx_state], [tx_state]) raises nothing but instances of
    [FldigiError]. *)
Theorem property_errors_are_FldigiError self name w x w1 :
  connected self -> In name data_properties ->
  getattr (OClient self) name w = (Raise x, w1) ->
  isinstance x FldigiError = true.
Proof.
  intros Hc Hin H. unfold data_properties in Hin. simpl in Hin.
  destruct Hin as [<- | [<- | [<- | Hin]]].
  - apply (data_error_instance frequency self w x w1); [| exact H].
    intros y w2.
    exact (fallback_pair_error_instance self "rig.get_frequency" "main.get_frequency" []
             (fun v => v) (frequency self) w y w2 (getter_fallback_pair self _ _ [] Hc)).
  - apply (data_error_instance mode self w x w1); [| exact H].
    intros y w2.
    exact (fallback_pair_error_instance self "rig.get_mode" "main.get_mode" []
             (fun v => v) (mode self) w y w2 (getter_fallback_pair self _ _ [] Hc)).
  - apply (data_error_instance bandwidth self w x w1); [| exact H].
    intros y w2.
    exact (fallback_pair_error_instance self "rig.get_bandwidth" "main.get_bandwidth" []
             (fun v => v) (bandwidth self) w y w2 (getter_fallback_pair self _ _ [] Hc)).
  - destruct Hin as [<- | [<- | [<- | [<- | []]]]];
      (eapply data_error_instance; [| exact H]);
      intros y w2; apply call_error_instance.
Qed.

(** ** Case of the letters, and repeated reads *)

(** X18.  The tests for "rig" and "modem" ignore the case of the letters,
    the test for the prefix ["main."] does not: a protocol fault on a method
    [MAIN.<a>], with neither "rig" nor "modem" in [a], raises
    [FldigiXmlrpcError], where the same fault on [main.<a>] raises
    [FldigiMainError] and on [RIG.<a>] raises [FldigiRigError]. *)
Theorem main_prefix_is_case_sensitive self a args w code text w1 prefix :
  ~ ContainsNoCase "rig" a -> ~ ContainsNoCase "modem" a ->
  In prefix ["MAIN."; "main."; "RIG."] ->
  server_call (_server self) (prefix +:+ a) args w = (Raise (Fault code text), w1) ->
  exists msg,
    _call self (prefix +:+ a) args w
    = (Raise (FldigiExc
                (if String.eqb prefix "MAIN." then FldigiXmlrpcError
                 else if String.eqb prefix "main." then FldigiMainError
                 else FldigiRigError)
                msg (Some (Fault code text))), w1).
Proof.
  intros Hrig Hmodem Hin Hs. rewrite (call_fault_class _ _ _ _ _ _ _ Hs).
  apply str_in_lower_false in Hrig, Hmodem.
  destruct Hin as [<- | [<- | [<- | []]]];
    cbn; rewrite ?Hrig, ?Hmodem; eexists; reflexivity.
Qed.

(** X19.  Nothing is cached: reading one of the plain properties twice on a
    connected client sends its request twice, the second read running in
    the world the first one left. *)
Theorem plain_properties_are_not_cached self name method w o1 w1 :
  connected self -> In (name, method) plain_properties ->
  getattr (OClient self) name w = (Return o1, w1) ->
  bind (getattr (OClient self) name)
       (fun a => bind (getattr (OClient self) name) (fun b => ret (a, b))) w
  = match getattr (OClient self) name w1 with
    | (Return o2, w2) => (Return (o1, o2), w2)
    | (Raise e, w2) => (Raise e, w2)
    end /\
  wire (snd (getattr (OClient self) name w1))
  = (wire w ++ [(method, []); (method, [])])%list.
Proof.
  intros Hc Hin H1. split.
  - unfold bind at 1. rewrite H1. unfold bind, ret.
    now destruct (getattr (OClient self) name w1) as [[o2|e] w2].
  - assert (Hw : forall w0, issues (getattr (OClient self) name) w0 [(method, [])]).
    { intros w0. apply (ends_as_wire _ self method [] OValue w0 Hc).
      unfold plain_properties in Hin.
      repeat (destruct Hin as [Hin | Hin];
              [injection Hin as <- <-; apply data_ends_as |]).
      destruct Hin. }
    pose proof (Hw w) as Ha. pose proof (Hw w1) as Hb. unfold issues in Ha, Hb.
    rewrite H1 in Ha. cbn [snd] in Ha. rewrite Hb, Ha. now rewrite <- app_assoc.
Qed.

End Properties.

(** ** The client on the scripted remote *)

Lemma scripted_connected : connected Scripted.client.
Proof. now exists "http://127.0.0.1:7362". Defined.

Lemma call_classifies_failure_witness :
  exists kind msg,
    _call Scripted.client "rig.get_mode" [] (Scripted.world [Raise (Fault 1 "no rig")])
    = (Raise (FldigiExc kind msg (Some (Fault 1 "no rig"))),
       Scripted.world_sent [] [("rig.get_mode", [])]) /\
    decision_table "rig.get_mode" (Fault 1 "no rig") kind /\
    (forall kind', decision_table "rig.get_mode" (Fault 1 "no rig") kind' -> kind' = kind).
Proof.
  apply (call_classifies_failure Scripted.client
           "rig.get_mode" [] (Scripted.world [Raise (Fault 1 "no rig")])).
  reflexivity.
Defined.

Lemma call_raises_one_typed_error_witness :
  exists failure kind msg,
    server_call (_server Scripted.client) "rig.get_mode" []
      (Scripted.world [Raise (Fault 1 "no rig")])
    = (Raise failure, Scripted.world_sent [] [("rig.get_mode", [])]) /\
    FldigiExc FldigiRigError "Rig error in rig.get_mode: no rig" (Some (Fault 1 "no rig"))
    = FldigiExc kind msg (Some failure) /\
    decision_table "rig.get_mode" failure kind /\
    (protocol_fault failure -> forall k m c, failure <> FldigiExc k m c).
Proof.
  apply (call_raises_one_typed_error Scripted.client
           "rig.get_mode" [] (Scripted.world [Raise (Fault 1 "no rig")])).
  reflexivity.
Defined.

Lemma facade_fallback_pairs_witness :
  exists fget fset,
    Fldigi_namespace !! "frequency" = Some (Property (data fget) (Some fset)) /\
    fallback_pair Scripted.client "rig.get_frequency" "main.get_frequency" []
      (fun v => v) (fget Scripted.client) /\
    forall v,
      fallback_pair Scripted.client "rig.set_frequency" "main.set_frequency" [v]
        (fun _ => tt) (fset Scripted.client v).
Proof.
  apply (facade_fallback_pairs Scripted.client "frequency").
  - exact scripted_connected.
  - left. reflexivity.
Defined.

Lemma proxy_access_is_dispatch_witness :
  proxy_equivalent_to_dispatch (rt := Scripted.runtime)
    (mkNamespaceProxy Scripted.client "rig") "get_mode" [].
Proof.
  apply (proxy_access_is_dispatch (rt := Scripted.runtime)).
  - discriminate.
  - discriminate.
  - reflexivity.
Defined.

Lemma get_rx_wire_call_witness :
  dispatches
    (call_method (rt := Scripted.runtime)
       (OClient Scripted.client) "get_rx" [] [("start", VInt 5)])
    Scripted.client "text.get_rx" [VInt 5; VInt 0; VInt 0] /\
  dispatches
    (call_method (rt := Scripted.runtime)
       (OClient Scripted.client) "get_rx" [] [("start", VInt 0); ("length", VInt 20)])
    Scripted.client "text.get_rx" [VInt 0; VInt 0; VInt 20].
Proof.
  split.
  - exact (proj1 (proj2 (get_rx_wire_call (rt := Scripted.runtime)
                           Scripted.client (VInt 5) scripted_connected))).
  - exact (proj2 (proj2 (proj2 (get_rx_wire_call (rt := Scripted.runtime)
                                  Scripted.client (VInt 0) scripted_connected)))
             20).
Defined.

Lemma proxies_forward_to_namespace_witness :
  forwards_to (rt := Scripted.runtime) Scripted.client
    "modem_olivia" "get_bandwidth" "modem.olivia.get_bandwidth".
Proof.
  apply (proxies_forward_to_namespace (rt := Scripted.runtime)
           Scripted.client "modem_olivia" "get_bandwidth").
  - unfold dynamic_surface. do 5 right. left. reflexivity.
  - discriminate.
  - discriminate.
  - reflexivity.
Defined.

Lemma failures_name_their_origin_witness :
  (exists kind msg,
     _call Scripted.client "text.get_rx" [VInt 0; VInt 0; VInt 0] (Scripted.world [])
     = (Raise (FldigiExc kind msg
                 (Some (PyError "ConnectionRefusedError"
                          "[Errno 111] Connection refused"))),
        Scripted.world_sent [] [("text.get_rx", [VInt 0; VInt 0; VInt 0])]) /\
     Contains "text.get_rx" msg) /\
  (exists msg cause,
     __init__ "127.0.0.1" 7362 5%float (Scripted.world [])
     = (Raise (FldigiExc FldigiXmlrpcError msg cause), Scripted.world []) /\
     Contains "http://127.0.0.1:7362" msg /\
     Contains "ServerProxy.__init__() got an unexpected keyword argument 'timeout'"
       msg).
Proof.
  split.
  - apply (proj1 (failures_name_their_origin (lib := Scripted.library)) Scripted.client
             "text.get_rx" [VInt 0; VInt 0; VInt 0] (Scripted.world [])).
    reflexivity.
  - apply (proj2 (proj2 (failures_name_their_origin (lib := Scripted.library)))
             "127.0.0.1" 7362 5%float (Scripted.world [])
             (PyError "TypeError"
                "ServerProxy.__init__() got an unexpected keyword argument 'timeout'")).
    reflexivity.
Defined.

(** ** Where the code departs from the specification *)

(** C3.  With the remote ready to answer [True], [client.rx()] raises
    [TypeError] and sends nothing, where the body of [def rx] would have sent
    [main.rx] and returned the answer. *)
Lemma rx_call_sends_nothing :
  call_method (rt := Scripted.runtime) (OClient Scripted.client) "rx" [] []
    (Scripted.world [Return (VBool true)])
  = (Raise (PyError "TypeError" "'NamespaceProxy' object is not callable"),
     Scripted.world [Return (VBool true)]) /\
  rx Scripted.client (Scripted.world [Return (VBool true)])
  = (Return (VBool true), Scripted.world_sent [] [("main.rx", [])]).
Proof. split; reflexivity. Qed.

(** C8, as the code behaves.  With the constructor of the standard library,
    [new_client host port timeout] raises [FldigiXmlrpcError] for every
    host, port and timeout, the defaults included: the [TypeError] for the
    keyword [timeout] is caught in [_connect] and wrapped.  No call of the
    constructor returns a client. *)
Theorem construction_never_returns_a_client host port timeout w :
  new_client (lib := Scripted.library) host port timeout w
  = (Raise (FldigiExc FldigiXmlrpcError
              ("Failed to connect to FLDIGI at "
               +:+ ("http://" +:+ default "127.0.0.1" host +:+ ":"
                    +:+ str_int (default 7362 port))
               +:+ ": "
               +:+ "ServerProxy.__init__() got an unexpected keyword argument 'timeout'")
              None), w) /\
  forall self w1,
    new_client (lib := Scripted.library) host port timeout w <> (Return self, w1).
Proof.
  assert (H : new_client (lib := Scripted.library) host port timeout w
              = (Raise (FldigiExc FldigiXmlrpcError
                          ("Failed to connect to FLDIGI at "
                           +:+ ("http://" +:+ default "127.0.0.1" host +:+ ":"
                                +:+ str_int (default 7362 port))
                           +:+ ": "
                           +:+ "ServerProxy.__init__() got an unexpected keyword argument 'timeout'")
                          None), w)).
  { unfold new_client.
    exact (init_failure (lib := Scripted.library) _ _ _ w
             (PyError "TypeError"
                "ServerProxy.__init__() got an unexpected keyword argument 'timeout'")
             eq_refl). }
  split; [exact H |]. intros self w1. rewrite H. discriminate.
Qed.

(** The quickstart of the module, [Fldigi(host="127.0.0.1", port=7362)],
    is such a call. *)
Lemma quickstart_construction_fails :
  new_client (lib := Scripted.library) (Some "127.0.0.1") (Some 7362) None
    (Scripted.world [])
  = (Raise (FldigiExc FldigiXmlrpcError
              "Failed to connect to FLDIGI at http://127.0.0.1:7362: ServerProxy.__init__() got an unexpected keyword argument 'timeout'"
              None),
     Scripted.world []).
Proof. reflexivity. Qed.

(** C4 as stated fails on the attribute [_namespace]: [client.rig._namespace]
    is the string ["rig"], calling it raises [TypeError] and sends nothing,
    whereas the dispatcher call of ["rig._namespace"] sends a request. *)
Lemma proxy_field_is_not_dispatch :
  ~ proxy_equivalent_to_dispatch (rt := Scripted.runtime)
      (mkNamespaceProxy Scripted.client "rig") "_namespace" [].
Proof.
  intros H. specialize (H (Scripted.world [])). vm_compute in H. discriminate H.
Qed.

(** C6 as stated fails on [modem_olivia]: [client.modem_olivia.get_bandwidth()]
    sends ["modem.olivia.get_bandwidth"], not
    ["modem_olivia.get_bandwidth"]. *)
Lemma modem_olivia_is_not_its_namespace :
  In "modem_olivia" dynamic_surface /\
  ~ forwards_to (rt := Scripted.runtime) Scripted.client
      "modem_olivia" "get_bandwidth" ("modem_olivia" +:+ "." +:+ "get_bandwidth").
Proof.
  split.
  - unfold dynamic_surface. do 5 right. left. reflexivity.
  - intros H. specialize (H [] (Scripted.world [])). vm_compute in H. discriminate H.
Qed.

(** C7 as stated fails at construction: the error raised there has no
    cause, and its message names the URL, not a remote method. *)
Lemma construction_error_has_no_cause :
  __init__ (lib := Scripted.library) "127.0.0.1" 7362 5%float (Scripted.world [])
  = (Raise (FldigiExc FldigiXmlrpcError
              "Failed to connect to FLDIGI at http://127.0.0.1:7362: ServerProxy.__init__() got an unexpected keyword argument 'timeout'"
              None),
     Scripted.world []) /\
  ~ construction_error_chains_cause (lib := Scripted.library).
Proof.
  split; [reflexivity |].
  intros H.
  destruct (H "127.0.0.1" 7362 5%float (Scripted.world []) _ _ eq_refl)
    as (failure & _ & Hc).
  discriminate Hc.
Qed.

(** ** Further runs on the scripted remote *)

Lemma call_is_one_transport_call_witness :
  snd (_call Scripted.client "main.rx" [] (Scripted.world [Return (VBool true)]))
  = snd (server_call (_server Scripted.client) "main.rx" []
           (Scripted.world [Return (VBool true)])) /\
  issues (_call Scripted.client "main.rx" [])
    (Scripted.world [Return (VBool true)]) [("main.rx", [])] /\
  (forall v w1,
     server_call (_server Scripted.client) "main.rx" []
       (Scripted.world [Return (VBool true)]) = (Return v, w1) ->
     _call Scripted.client "main.rx" [] (Scripted.world [Return (VBool true)])
     = (Return v, w1)).
Proof.
  exact (call_is_one_transport_call Scripted.client "main.rx" []
           (Scripted.world [Return (VBool true)]) scripted_connected).
Defined.

Lemma raised_errors_are_FldigiError_witness :
  isinstance
    (FldigiExc FldigiRigError "Rig error in rig.get_mode: no rig"
       (Some (Fault 1 "no rig"))) FldigiError = true /\
  isinstance
    (FldigiExc FldigiXmlrpcError
       "Failed to connect to FLDIGI at http://127.0.0.1:7362: ServerProxy.__init__() got an unexpected keyword argument 'timeout'"
       None)
    FldigiError = true.
Proof.
  split.
  - apply (proj1 (raised_errors_are_FldigiError (lib := Scripted.library))
             Scripted.client "rig.get_mode" []
             (Scripted.world [Raise (Fault 1 "no rig")]) _
             (Scripted.world_sent [] [("rig.get_mode", [])])).
    reflexivity.
  - apply (proj2 (raised_errors_are_FldigiError (lib := Scripted.library))
             "127.0.0.1" 7362 5%float (Scripted.world []) _ (Scripted.world [])).
    reflexivity.
Defined.

Lemma void_methods_discard_the_answer_witness :
  ends_as (call_method (rt := Scripted.runtime) (OClient Scripted.client) "tune" [] [])
    (_call Scripted.client "main.tune" []) (fun _ => VNone)
    (Scripted.world [Return (VStr "ok")]) /\
  issues (call_method (rt := Scripted.runtime) (OClient Scripted.client) "tune" [] [])
    (Scripted.world [Return (VStr "ok")]) [("main.tune", [])].
Proof.
  apply (void_methods_discard_the_answer (rt := Scripted.runtime)
           Scripted.client "tune" "main.tune").
  - exact scripted_connected.
  - left. reflexivity.
Defined.

Lemma add_tx_sends_the_text_witness :
  ends_as
    (call_method (rt := Scripted.runtime) (OClient Scripted.client) "add_tx"
       [VStr "CQ CQ"] [])
    (_call Scripted.client "text.add_tx" [VStr "CQ CQ"]) (fun _ => VNone)
    (Scripted.world [Return VNone]).
Proof.
  exact (proj1 (add_tx_sends_the_text (rt := Scripted.runtime) Scripted.client
                  (VStr "CQ CQ") (Scripted.world [Return VNone]) scripted_connected)).
Defined.

Lemma plain_properties_make_one_call_witness :
  ends_as (getattr (rt := Scripted.runtime) (OClient Scripted.client) "signal_strength")
    (_call Scripted.client "modem.get_quality" []) OValue
    (Scripted.world [Return (VFloat 5)]).
Proof.
  apply (plain_properties_make_one_call (rt := Scripted.runtime)
           Scripted.client "signal_strength" "modem.get_quality"
           (Scripted.world [Return (VFloat 5)])).
  - exact scripted_connected.
  - right. left. reflexivity.
Defined.

Lemma proxy_call_rejects_keywords_witness :
  call_method (rt := Scripted.runtime)
    (OProxy (mkNamespaceProxy Scripted.client "rig")) "set_frequency" []
    [("freq", VInt 7074000)] (Scripted.world [])
  = (Raise (PyError "TypeError"
              (signature_error (Runtime := Scripted.runtime) "_call" []
                 [("freq", VInt 7074000)])), Scripted.world []).
Proof.
  apply (proxy_call_rejects_keywords (rt := Scripted.runtime)
           (mkNamespaceProxy Scripted.client "rig") "set_frequency" []
           ("freq", VInt 7074000) [] (Scripted.world []));
    (discriminate || reflexivity).
Defined.

Lemma client_unknown_attribute_witness :
  getattr (rt := Scripted.runtime) (OClient Scripted.client) "get_frequency"
    (Scripted.world [])
  = (Raise (PyError "AttributeError"
              "'Fldigi' object has no attribute 'get_frequency'"),
     Scripted.world []).
Proof.
  apply (client_unknown_attribute (rt := Scripted.runtime) Scripted.client
           "get_frequency" (Scripted.world [])).
  - simpl. intuition discriminate.
  - simpl. intuition discriminate.
  - reflexivity.
Defined.

Lemma rig_proxy_fault_is_RigError_witness :
  call_method2 (rt := Scripted.runtime) (OClient Scripted.client) "rig" "get_trx" []
    [] (Scripted.world [Raise (Fault 2 "no")])
  = (Raise (FldigiExc FldigiRigError "Rig error in rig.get_trx: no"
              (Some (Fault 2 "no"))),
     Scripted.world_sent [] [("rig.get_trx", [])]).
Proof.
  apply (rig_proxy_fault_is_RigError (rt := Scripted.runtime) Scripted.client
           "get_trx" [] (Scripted.world [Raise (Fault 2 "no")]) 2 "no");
    (discriminate || reflexivity).
Defined.

Lemma proxy_fault_class_witness :
  exists msg,
    call_method2 (rt := Scripted.runtime) (OClient Scripted.client) "modem_olivia"
      "get_bandwidth" [] [] (Scripted.world [Raise (Fault 3 "off")])
    = (Raise (FldigiExc (fault_class_of_proxy "modem_olivia") msg
                (Some (Fault 3 "off"))),
       Scripted.world_sent [] [("modem.olivia.get_bandwidth", [])]).
Proof.
  apply (proxy_fault_class (rt := Scripted.runtime) Scripted.client "modem_olivia"
           "get_bandwidth" [] (Scripted.world [Raise (Fault 3 "off")]) 3 "off").
  - unfold dynamic_surface. do 5 right. left. reflexivity.
  - discriminate.
  - discriminate.
  - reflexivity.
  - apply str_in_lower_false. reflexivity.
  - apply str_in_lower_false. reflexivity.
  - reflexivity.
Defined.

Lemma read_falls_back_on_fault_only_witness :
  (protocol_fault (PyError "TimeoutError" "timed out") ->
   ends_as
     (fun _ => getattr (rt := Scripted.runtime) (OClient Scripted.client) "frequency"
                 (Scripted.world [Raise (PyError "TimeoutError" "timed out")]))
     (_call Scripted.client ("main.get_" +:+ "frequency") []) OValue
     (Scripted.world_sent [] [("rig.get_frequency", [])])) /\
  (~ protocol_fault (PyError "TimeoutError" "timed out") ->
   getattr (rt := Scripted.runtime) (OClient Scripted.client) "frequency"
     (Scripted.world [Raise (PyError "TimeoutError" "timed out")])
   = (Raise (FldigiExc FldigiXmlrpcError
               ("XML-RPC call failed for rig.get_" +:+ "frequency" +:+ ": "
                +:+ str (lib := Scripted.library) (PyError "TimeoutError" "timed out"))
               (Some (PyError "TimeoutError" "timed out"))),
      Scripted.world_sent [] [("rig.get_frequency", [])]) /\
   wire (Scripted.world_sent [] [("rig.get_frequency", [])])
   = (wire (Scripted.world [Raise (PyError "TimeoutError" "timed out")])
      ++ [("rig.get_" +:+ "frequency", [])])%list).
Proof.
  apply (read_falls_back_on_fault_only (rt := Scripted.runtime) Scripted.client
           "frequency" (Scripted.world [Raise (PyError "TimeoutError" "timed out")])).
  - exact scripted_connected.
  - left. reflexivity.
  - reflexivity.
Defined.

Lemma write_falls_back_on_fault_only_witness :
  exists fset,
    Fldigi_setter "mode" = Some fset /\
    (protocol_fault (Fault 1 "no rig") ->
     ends_as
       (fun _ => fset Scripted.client (VStr "BPSK31")
                   (Scripted.world [Raise (Fault 1 "no rig"); Return VNone]))
       (_call Scripted.client ("main.set_" +:+ "mode") [VStr "BPSK31"])
       (fun _ => tt)
       (Scripted.world_sent [Return VNone] [("rig.set_mode", [VStr "BPSK31"])])) /\
    (~ protocol_fault (Fault 1 "no rig") ->
     fset Scripted.client (VStr "BPSK31")
       (Scripted.world [Raise (Fault 1 "no rig"); Return VNone])
     = (Raise (FldigiExc FldigiXmlrpcError
                 ("XML-RPC call failed for rig.set_" +:+ "mode" +:+ ": "
                  +:+ str (lib := Scripted.library) (Fault 1 "no rig"))
                 (Some (Fault 1 "no rig"))),
        Scripted.world_sent [Return VNone] [("rig.set_mode", [VStr "BPSK31"])])).
Proof.
  apply (write_falls_back_on_fault_only (rt := Scripted.runtime) Scripted.client
           "mode" (VStr "BPSK31")
           (Scripted.world [Raise (Fault 1 "no rig"); Return VNone])).
  - exact scripted_connected.
  - right. left. reflexivity.
  - reflexivity.
Defined.

Lemma read_rejected_twice_is_MainError_witness :
  getattr (rt := Scripted.runtime) (OClient Scripted.client) "bandwidth"
    (Scripted.world [Raise (Fault 1 "no rig"); Raise (Fault 2 "busy")])
  = (Raise (FldigiExc FldigiMainError
              ("Main error in main.get_" +:+ "bandwidth" +:+ ": " +:+ "busy")
              (Some (Fault 2 "busy"))),
     Scripted.world_sent [] [("rig.get_bandwidth", []); ("main.get_bandwidth", [])]).
Proof.
  apply (read_rejected_twice_is_MainError (rt := Scripted.runtime) Scripted.client
           "bandwidth"
           (Scripted.world [Raise (Fault 1 "no rig"); Raise (Fault 2 "busy")])
           1 "no rig"
           (Scripted.world_sent [Raise (Fault 2 "busy")] [("rig.get_bandwidth", [])])
           2 "busy").
  - exact scripted_connected.
  - right. right. left. reflexivity.
  - reflexivity.
  - reflexivity.
Defined.

Lemma property_errors_are_FldigiError_witness :
  isinstance
    (FldigiExc FldigiXmlrpcError
       "XML-RPC call failed for main.get_squelch_level: [Errno 111] Connection refused"
       (Some (PyError "ConnectionRefusedError" "[Errno 111] Connection refused")))
    FldigiError = true.
Proof.
  apply (property_errors_are_FldigiError (rt := Scripted.runtime) Scripted.client
           "squelch" (Scripted.world []) _
           (Scripted.world_sent [] [("main.get_squelch_level", [])])).
  - exact scripted_connected.
  - unfold data_properties. simpl. tauto.
  - reflexivity.
Defined.

Lemma main_prefix_is_case_sensitive_witness :
  exists msg,
    _call Scripted.client ("MAIN." +:+ "rx") [] (Scripted.world [Raise (Fault 1 "?")])
    = (Raise (FldigiExc FldigiXmlrpcError msg (Some (Fault 1 "?"))),
       Scripted.world_sent [] [("MAIN.rx", [])]).
Proof.
  apply (main_prefix_is_case_sensitive Scripted.client "rx" []
           (Scripted.world [Raise (Fault 1 "?")]) 1 "?" _ "MAIN.").
  - apply str_in_lower_false. reflexivity.
  - apply str_in_lower_false. reflexivity.
  - left. reflexivity.
  - reflexivity.
Defined.

Lemma plain_properties_are_not_cached_witness :
  wire (snd (getattr (rt := Scripted.runtime) (OClient Scripted.client) "rx_state"
               (Scripted.world_sent [Return (VBool false)] [("main.rx", [])])))
  = (wire (Scripted.world [Return (VBool true); Return (VBool false)])
     ++ [("main.rx", []); ("main.rx", [])])%list.
Proof.
  apply (plain_properties_are_not_cached (rt := Scripted.runtime) Scripted.client
           "rx_state" "main.rx"
           (Scripted.world [Return (VBool true); Return (VBool false)])
           (OValue (VBool true))
           (Scripted.world_sent [Return (VBool false)] [("main.rx", [])])).
  - exact scripted_connected.
  - do 2 right. left. reflexivity.
  - reflexivity.
Defined.
